(** * Sandia: upload, analysis trigger, result polling and consensus

    A shallow embedding of the parts of the Sandia platform that its design
    specification talks about:

    - [sandia-backend/utils/fileValidation.js]: [sanitizeFilename],
      [generateUniqueFilename];
    - [sandia-backend/routes/upload.js]: [POST /file], [GET /status/:jobId],
      the per-object callback of [GET /files];
    - [sandia-backend/routes/analysis.js]: [POST /trigger/:fileId];
    - the enhanced STATA page (React): [triggerLambdaAnalysis],
      [fetchAnalysisResults], the [initAnalysis] effect and the polling
      effect;
    - the majority vote [consensus_verdict] of the README and the
      consensus block of the three-way comparison view;
    - the risk gauge thresholds of the STATA page.

    JavaScript strings are sequences of UTF-16 code units; they are modelled
    as [list N].  Numbers that the code treats as real-valued scores are
    rationals ([Q]); the one floating-point division of the consensus block
    is evaluated with binary64 floats. *)

From Stdlib Require Import ZArith NArith QArith Qround Lia Lqa Bool String Ascii Floats Uint63.
From stdpp Require Import base list option strings gmap.
From Equations Require Import Equations.

#[local] Open Scope N_scope.

(** ** JavaScript strings *)

Module JS.

(** A JavaScript string: its UTF-16 code units. *)
Abbreviation jsstring := (list N).

(** A string literal (ASCII) as code units. *)
Definition js (s : string) : jsstring :=
  List.map N_of_ascii (list_ascii_of_string s).

(** Truthiness of a string: only the empty string is falsy. *)
Definition truthy (s : jsstring) : bool :=
  match s with [] => false | _ :: _ => true end.

(** Truthiness of a possibly [undefined] string. *)
Definition truthy_opt (s : option jsstring) : bool :=
  match s with Some s => truthy s | None => false end.

(** [a || b] on strings where [a] may be [undefined]. *)
Definition or_else (a : option jsstring) (b : jsstring) : jsstring :=
  match a with
  | Some s => if truthy s then s else b
  | None => b
  end.

Definition in_range (lo hi c : N) : bool := (lo <=? c) && (c <=? hi).

Definition is_lower (c : N) : bool := in_range 97 122 c.
Definition is_upper (c : N) : bool := in_range 65 90 c.
Definition is_digit (c : N) : bool := in_range 48 57 c.

Definition underscore : N := 95.
Definition slash : N := 47.
Definition dot : N := 46.
Definition hyphen : N := 45.

(** [String.prototype.toLowerCase] and [toUpperCase], as they act on ASCII:
    the letters a-z and A-Z are mapped, every other code unit is kept.
    JavaScript also maps letters outside ASCII (U+00C0 to U+00E0, U+0131 to
    I, U+017F to S, and so on), which this embedding leaves as they are: the
    two functions are exact on strings of ASCII code units, such as the
    output of [sanitizeFilename]. *)
Definition lower_unit (c : N) : N := if is_upper c then c + 32 else c.
Definition upper_unit (c : N) : N := if is_lower c then c - 32 else c.

Definition toLowerCase (s : jsstring) : jsstring := List.map lower_unit s.
Definition toUpperCase (s : jsstring) : jsstring := List.map upper_unit s.

(** [s.replace(/[^...]/g, r)] for a negated character class given by its
    membership test [cls]: every code unit outside the class becomes [r]. *)
Definition replace_outside (cls : N -> bool) (r : jsstring) (s : jsstring)
  : jsstring :=
  List.flat_map (fun c => if cls c then [c] else r) s.

(** The value under scrutiny together with the equation that names it. *)
Definition inspect {A} (a : A) : {b : A | a = b} := exist _ a eq_refl.

(** Length of the longest prefix of underscores: what the greedy [_{2,}]
    consumes when it matches at the head. *)
Fixpoint run_length (s : jsstring) : nat :=
  match s with
  | c :: rest => if c =? underscore then S (run_length rest) else O
  | [] => O
  end.

(** [s.replace(/_{2,}/g, '_')]: scanning left to right, a position where
    at least two underscores start is a match; the match extends over the
    whole run, is replaced by one underscore, and the scan resumes after
    it; any other code unit is copied. *)
Equations? replace_underscore_runs (s : jsstring) : jsstring
  by wf (length s) lt :=
  replace_underscore_runs [] := [];
  replace_underscore_runs (c :: rest) with inspect (2 <=? run_length (c :: rest))%nat := {
    | exist _ true _ =>
        underscore :: replace_underscore_runs (drop (run_length (c :: rest)) (c :: rest))
    | exist _ false _ => c :: replace_underscore_runs rest }.
Proof.
  - rewrite length_drop. cbn [run_length length] in *.
    destruct (c =? underscore); [lia | discriminate].
Defined.

(** [s.split(sep)] for a one-unit separator. *)
Fixpoint split (sep : N) (s : jsstring) : list jsstring :=
  match s with
  | [] => [[]]
  | c :: rest =>
      if c =? sep then [] :: split sep rest
      else match split sep rest with
           | seg :: segs => (c :: seg) :: segs
           | [] => [[c]]
           end
  end.

(** [parts.join(sep)]. *)
Fixpoint join (sep : jsstring) (parts : list jsstring) : jsstring :=
  match parts with
  | [] => []
  | [p] => p
  | p :: ps => p ++ sep ++ join sep ps
  end.

(** [parts.pop()] as a value: the last element, [undefined] when empty. *)
Definition pop (parts : list jsstring) : option jsstring := last parts.

(** [parts.slice(0, -1)]. *)
Definition slice_init (parts : list jsstring) : list jsstring :=
  List.removelast parts.

End JS.

Import JS.

(** ** [utils/fileValidation.js] *)

Module FileValidation.

(** The class [[a-zA-Z0-9.-]] of the first replacement. *)
Definition filename_unit (c : N) : bool :=
  is_lower c || is_upper c || is_digit c || (c =? dot) || (c =? hyphen).

(** [sanitizeFilename]:
    [filename.replace(/[^a-zA-Z0-9.-]/g, '_').replace(/_{2,}/g, '_').toLowerCase()]. *)
Definition sanitizeFilename (filename : jsstring) : jsstring :=
  toLowerCase
    (replace_underscore_runs
       (replace_outside filename_unit [underscore] filename)).

(** [generateUniqueFilename]; [timestamp] is [Date.now()] printed in
    decimal and [randomString] is
    [Math.random().toString(36).substring(2, 15)], both supplied by the
    environment.  [split] never returns an empty array, so [pop] is
    defined. *)
Definition generateUniqueFilename (timestamp randomString originalName : jsstring)
  : jsstring :=
  let extension := default [] (pop (split dot originalName)) in
  let baseName := join [dot] (slice_init (split dot originalName)) in
  timestamp ++ [hyphen] ++ randomString ++ [hyphen] ++ baseName ++ [dot] ++ extension.

(** The alphabet of sanitized names: lower-case letters, digits, dot,
    hyphen, underscore. *)
Definition clean_unit (c : N) : bool :=
  is_lower c || is_digit c || (c =? dot) || (c =? hyphen) || (c =? underscore).

(** No two neighbouring underscores. *)
Fixpoint no_runs (s : jsstring) : bool :=
  match s with
  | a :: rest =>
      match rest with
      | b :: _ => negb ((a =? underscore) && (b =? underscore)) && no_runs rest
      | [] => true
      end
  | [] => true
  end.

End FileValidation.

Import FileValidation.

(** ** [routes/upload.js] *)

Module Upload.

(** An object of the upload bucket, as [PutObjectCommand] stores it. *)
Record S3Object := {
  Body : list N;
  ContentType : jsstring;
  meta_originalName : jsstring;
  meta_jobId : jsstring;
  meta_uploadTimestamp : jsstring;
  meta_fileSize : N
}.

(** The bucket [S3_CONFIG.bucket]: object keys to objects. *)
Abbreviation bucket := (gmap (list N) S3Object).

(** [S3_CONFIG.uploadPath] of [config/aws.js]. *)
Definition uploadPath : jsstring := js "uploads/".

(** [req.file] as multer's memory storage provides it. *)
Record MulterFile := {
  originalname : jsstring;
  buffer : list N;
  mimetype : jsstring;
  size : N
}.

(** What the handler draws from its environment: [uuidv4()], [Date.now()],
    the random suffix, and [new Date().toISOString()]. *)
Record UploadEnv := {
  uuid : jsstring;
  timestamp : jsstring;
  randomString : jsstring;
  isoNow : jsstring
}.

(** Outcome of [s3Client.send(command)]: the [ETag], or a thrown error with
    its [name]. *)
Inductive S3Outcome :=
| S3Ok (etag : jsstring)
| S3Throws (name : jsstring).

Record UploadData := {
  data_jobId : jsstring;
  data_filename : jsstring;
  data_originalName : jsstring;
  data_size : N;
  data_mimeType : jsstring;
  data_s3Key : jsstring;
  data_uploadTimestamp : jsstring;
  data_etag : jsstring
}.

Inductive UploadBody :=
| UploadSuccess (message : jsstring) (data : UploadData)
| UploadFailure (error message : jsstring).

(** The key built by [POST /file]:
    [`${S3_CONFIG.uploadPath}${jobId}/${uniqueFilename}`]. *)
Definition s3Key (jobId uniqueFilename : jsstring) : jsstring :=
  uploadPath ++ jobId ++ [slash] ++ uniqueFilename.

(** [POST /file].  Returns the bucket after the request, the HTTP status
    and the JSON body. *)
Definition post_file (b : bucket) (file : option MulterFile) (env : UploadEnv)
    (s3 : S3Outcome) : bucket * (nat * UploadBody) :=
  match file with
  | None =>
      (b, (400%nat, UploadFailure (js "No file provided")
                      (js "Please select a file to upload")))
  | Some file =>
      let jobId := uuid env in
      let sanitizedName := sanitizeFilename (originalname file) in
      let uniqueFilename :=
        generateUniqueFilename (timestamp env) (randomString env) sanitizedName in
      let key := s3Key jobId uniqueFilename in
      match s3 with
      | S3Ok etag =>
          (<[key := {| Body := buffer file;
                       ContentType := mimetype file;
                       meta_originalName := originalname file;
                       meta_jobId := jobId;
                       meta_uploadTimestamp := isoNow env;
                       meta_fileSize := size file |}]> b,
           (200%nat,
            UploadSuccess (js "File uploaded successfully")
              {| data_jobId := jobId;
                 data_filename := uniqueFilename;
                 data_originalName := originalname file;
                 data_size := size file;
                 data_mimeType := mimetype file;
                 data_s3Key := key;
                 data_uploadTimestamp := isoNow env;
                 data_etag := etag |}))
      | S3Throws name =>
          if decide (name = js "CredentialsError") then
            (b, (500%nat, UploadFailure (js "AWS credentials error")
                            (js "Unable to authenticate with AWS services")))
          else if decide (name = js "NetworkingError") then
            (b, (500%nat, UploadFailure (js "Network error")
                            (js "Unable to connect to AWS services")))
          else
            (b, (500%nat, UploadFailure (js "Upload failed")
                            (js "An error occurred while uploading the file")))
      end
  end.

(** Body of the upload status response. *)
Record StatusData := {
  status_jobId : jsstring;
  status_status : jsstring;
  status_message : jsstring
}.

(** [GET /status/:jobId].  The handler is given the bucket like every
    other handler of the router; its code never reads it. *)
Definition get_status (b : bucket) (jobId : jsstring)
  : bucket * (nat * (bool * StatusData)) :=
  (b, (200%nat, (true, {| status_jobId := jobId;
                          status_status := js "uploaded";
                          status_message := js "File upload completed successfully" |}))).

(** The class [[a-zA-Z0-9]] of the fallback id. *)
Definition alnum_unit (c : N) : bool := is_lower c || is_upper c || is_digit c.

(** One entry of the [GET /files] response (the fields derived from the
    key and the metadata). *)
Record FileEntry := {
  entry_id : jsstring;
  entry_filename : jsstring;
  entry_originalName : jsstring;
  entry_status : jsstring;
  entry_jobId : option jsstring;
  entry_fileType : jsstring;
  entry_s3Key : jsstring
}.

(** The callback of [response.Contents.map] in [GET /files].  [head] is the
    object returned by [GetObjectCommand], [None] when that call throws (the
    [catch] branch builds the fallback entry). *)
Definition file_entry (key : jsstring) (head : option S3Object) : FileEntry :=
  let pathParts := split slash key in
  let jobId := pathParts !! 1%nat in
  let filename := or_else (pathParts !! 2%nat) (default [] (pop (split slash key))) in
  let id := or_else jobId (replace_outside alnum_unit [] key) in
  match head with
  | Some obj =>
      {| entry_id := id;
         entry_filename := filename;
         (* S3 returns user metadata keys in lower case: [metadata.originalname] *)
         entry_originalName := or_else (Some (meta_originalName obj)) filename;
         entry_status := js "uploaded";
         entry_jobId := jobId;
         entry_fileType := or_else (Some (ContentType obj)) (js "unknown");
         entry_s3Key := key |}
  | None =>
      {| entry_id := id;
         entry_filename := filename;
         entry_originalName := filename;
         entry_status := js "uploaded";
         entry_jobId := jobId;
         entry_fileType := js "unknown";
         entry_s3Key := key |}
  end.

(** The textual shape of a version-4 UUID as the [uuid] package prints it:
    36 units, hyphens at offsets 8, 13, 18 and 23, lower-case hexadecimal
    digits elsewhere. *)
Definition hex_unit (c : N) : bool := is_digit c || in_range 97 102 c.

Definition uuid_unit_ok (i : nat) (c : N) : bool :=
  if decide (i = 8 \/ i = 13 \/ i = 18 \/ i = 23)%nat then c =? hyphen else hex_unit c.

Definition uuid_shape (j : jsstring) : bool :=
  (length j =? 36)%nat && forallb (fun ic => uuid_unit_ok (fst ic) (snd ic)) (imap pair j).

(** A sample upload. *)
Definition sample_env : UploadEnv :=
  {| uuid := js "123e4567-e89b-42d3-a456-426614174000";
     timestamp := js "1700000000000";
     randomString := js "k3j9x2";
     isoNow := js "2023-11-14T22:13:20.000Z" |}.

Definition sample_file : MulterFile :=
  {| originalname := js "Install Script.sh"; buffer := js "#!/bin/bash";
     mimetype := js "application/x-sh"; size := 11 |}.

End Upload.

(** ** [routes/analysis.js] *)

Module Analysis.

(** [RESULTS_BUCKET] default. *)
Definition RESULTS_BUCKET : jsstring := js "sandia-analysis-results".

(** [LAMBDA_FUNCTION_NAME] default. *)
Definition LAMBDA_FUNCTION_NAME : jsstring := js "sandia-static-analysis".

(** The payload handed to the Lambda function. *)
Record LambdaPayload := {
  payload_fileId : jsstring;
  payload_s3Bucket : jsstring;
  payload_s3Key : jsstring;
  payload_fileName : jsstring;
  payload_analysisType : jsstring;
  payload_resultsBucket : jsstring;
  payload_timestamp : jsstring
}.

(** What the backend acts on: the asynchronous invocations accepted by
    Lambda (most recent first) and the results bucket, keyed by object
    key, holding the JSON text each analysis writes. *)
Record World := {
  invocations : list LambdaPayload;
  results : gmap (list N) jsstring
}.

(** [req.body] of the trigger request; absent fields are [undefined]. *)
Record TriggerBody := {
  body_s3Key : option jsstring;
  body_s3Bucket : option jsstring;
  body_fileName : option jsstring
}.

(** Outcome of [lambdaClient.send(command)]: the [StatusCode] of the
    acknowledgement, or a thrown error with its [name]. *)
Inductive LambdaOutcome :=
| LambdaAccepted (statusCode : nat)
| LambdaThrows (name : jsstring).

Inductive TriggerBody_out :=
| TriggerProcessing (fileId : jsstring) (status : jsstring) (lambdaStatus : nat)
| TriggerFailure (error message : jsstring).

(** [POST /trigger/:fileId]. *)
Definition post_trigger (w : World) (fileId : jsstring) (body : TriggerBody)
    (isoNow : jsstring) (lambda : LambdaOutcome) : World * (nat * TriggerBody_out) :=
  if negb (truthy fileId) || negb (truthy_opt (body_s3Key body))
     || negb (truthy_opt (body_s3Bucket body)) then
    (w, (400%nat, TriggerFailure (js "Missing required parameters")
                    (js "fileId, s3Key, and s3Bucket are required")))
  else
    let key := default [] (body_s3Key body) in
    let payload :=
      {| payload_fileId := fileId;
         payload_s3Bucket := default [] (body_s3Bucket body);
         payload_s3Key := key;
         payload_fileName := or_else (body_fileName body) key;
         payload_analysisType := js "static";
         payload_resultsBucket := RESULTS_BUCKET;
         payload_timestamp := isoNow |} in
    match lambda with
    | LambdaAccepted code =>
        ({| invocations := payload :: invocations w; results := results w |},
         (202%nat, TriggerProcessing fileId (js "processing") code))
    | LambdaThrows name =>
        if decide (name = js "ResourceNotFoundException") then
          (w, (500%nat, TriggerFailure (js "Lambda function not found")
                          (js "The Lambda function '" ++ LAMBDA_FUNCTION_NAME
                           ++ js "' does not exist. Please check your configuration.")))
        else if decide (name = js "InvalidRequestContentException") then
          (w, (400%nat, TriggerFailure (js "Invalid request")
                          (js "The Lambda function payload is invalid")))
        else
          (w, (500%nat, TriggerFailure (js "Failed to trigger analysis")
                          (js "An error occurred while triggering the analysis")))
    end.

(** The key under which [GET /results/:fileId] and [GET /status/:fileId]
    look for a result: [`results/${fileId}.json`]. *)
Definition result_key (fileId : jsstring) : jsstring :=
  js "results/" ++ fileId ++ js ".json".

(** [GET /status/:fileId]: ['completed'] when the result object exists,
    ['pending'] otherwise. *)
Definition analysis_status (w : World) (fileId : jsstring) : jsstring :=
  match results w !! result_key fileId with
  | Some _ => js "completed"
  | None => js "pending"
  end.

(** The analyses of [fileId] that were started and whose result object is
    not there yet: the jobs that are still running. *)
Definition running_jobs (w : World) (fileId : jsstring) : list LambdaPayload :=
  match results w !! result_key fileId with
  | Some _ => []
  | None => List.filter (fun p => bool_decide (payload_fileId p = fileId)) (invocations w)
  end.

(** A sample trigger request, sent twice for the same file. *)
Definition sample_body : TriggerBody :=
  {| body_s3Key := Some (js "uploads/f1/a.sh");
     body_s3Bucket := Some (js "sandia-jobs");
     body_fileName := Some (js "a.sh") |}.

Definition empty_world : World := {| invocations := []; results := ∅ |}.

Definition triggered_once : World :=
  fst (post_trigger empty_world (js "f1") sample_body (js "2024-01-15T10:45:00Z")
         (LambdaAccepted 202)).

Definition triggered_twice : World :=
  fst (post_trigger triggered_once (js "f1") sample_body (js "2024-01-15T10:45:02Z")
         (LambdaAccepted 202)).

End Analysis.

(** ** The enhanced STATA page: trigger, first fetch, polling *)

Module STATAPage.

(** The fields of the result that [fetchAnalysisResults] reads. *)
Record ResultData := {
  metadata_filename : option jsstring;
  metadata_size_bytes : option N;
  metadata_file_type : option jsstring;
  result_timestamp : option jsstring
}.

Record UploadedFile := {
  file_id : jsstring;
  file_name : jsstring;
  file_size : N;
  file_type : jsstring;
  uploadedAt : jsstring;
  analysisResult : option ResultData
}.

(** The [useState] cells of the component that the effects read or
    write. *)
Record PageState := {
  selectedFile : option UploadedFile;
  loading : bool;
  error : option jsstring;
  analysisTriggered : bool;
  pollingAttempts : nat
}.

(** What the page has done so far, oldest first. *)
Inductive Event :=
| Waited (ms : nat)
| Fetched (fileId : jsstring)
| TriggerSent (fileId : jsstring).

(** A mounted page: its state, the pending timeout of the polling effect
    (its delay in milliseconds) and the log of its actions. *)
Record Page := {
  state : PageState;
  pollTimer : option nat;
  log : list Event
}.

(** How [getAnalysisResults] settles: it resolves with the response body
    ([success], [data], [message]) or throws an object with [status] and
    [message]. *)
Inductive FetchOutcome :=
| Resolved (success : bool) (data : option ResultData) (message : option jsstring)
| Thrown (status : option nat) (message : option jsstring).

(** The initial [useState] values. *)
Definition initial_state : PageState :=
  {| selectedFile := None; loading := true; error := None;
     analysisTriggered := false; pollingAttempts := 0%nat |}.

(** The polling effect: under its condition it sets a timeout of 5000 ms,
    otherwise nothing ([fileId] is the [fileId] search parameter, which the
    callback checks when it runs). *)
Definition polling_effect (st : PageState) : option nat :=
  if analysisTriggered st && truthy_opt (error st) && (pollingAttempts st <? 10)%nat
  then Some 5000%nat else None.

(** The dependency array of the polling effect (the search parameters do
    not change while the page is mounted). *)
Definition polling_deps (st : PageState) : bool * option jsstring * nat :=
  (analysisTriggered st, error st, pollingAttempts st).

(** A render commit from [state p] to [st']: when a dependency changed the
    cleanup clears the pending timeout and the effect runs again; otherwise
    the timeout is left as it is. *)
Definition commit (p : Page) (st' : PageState) : Page :=
  if decide (polling_deps (state p) = polling_deps st')
  then {| state := st'; pollTimer := pollTimer p; log := log p |}
  else {| state := st'; pollTimer := polling_effect st'; log := log p |}.

Definition mount : Page :=
  {| state := initial_state; pollTimer := polling_effect initial_state; log := [] |}.

Definition record (e : Event) (p : Page) : Page :=
  {| state := state p; pollTimer := pollTimer p; log := log p ++ [e] |}.

(** [triggerLambdaAnalysis]: [ok] tells whether [triggerAnalysis]
    resolved; a rejection is only logged to the console. *)
Definition triggerLambdaAnalysis (fileId : jsstring) (ok : bool) (p : Page) : Page :=
  let p := record (TriggerSent fileId) p in
  if ok then
    commit p {| selectedFile := selectedFile (state p); loading := loading (state p);
                error := error (state p); analysisTriggered := true;
                pollingAttempts := pollingAttempts (state p) |}
  else p.

(** The synchronous prefix of [fetchAnalysisResults] applied to state
    [st]: [setLoading(true)], [setError(null)]. *)
Definition fetch_prefix (st : PageState) : PageState :=
  {| selectedFile := selectedFile st; loading := true; error := None;
     analysisTriggered := analysisTriggered st; pollingAttempts := pollingAttempts st |}.

(** The message stored by the [catch] block. *)
Definition catch_message (status : option nat) (message : option jsstring) : jsstring :=
  if decide (status = Some 404%nat) then
    js "Analysis results not found. The analysis may still be in progress, please wait and try again."
  else or_else message (js "Failed to load analysis results. Please try again.").

(** The rest of [fetchAnalysisResults], once the request has settled. *)
Definition fetch_settle (now fileId : jsstring) (o : FetchOutcome) (st : PageState)
  : PageState :=
  let failed status message :=
    {| selectedFile := Some {| file_id := fileId; file_name := js "File Analysis";
                               file_size := 0; file_type := js "Unknown";
                               uploadedAt := now; analysisResult := None |};
       loading := false;
       error := Some (catch_message status message);
       analysisTriggered := analysisTriggered st;
       pollingAttempts := pollingAttempts st |} in
  match o with
  | Resolved true (Some d) _ =>
      {| selectedFile :=
           Some {| file_id := fileId;
                   file_name := or_else (metadata_filename d) (js "Unknown File");
                   file_size := default 0 (metadata_size_bytes d);
                   file_type := or_else (metadata_file_type d) (js "Unknown");
                   uploadedAt := or_else (result_timestamp d) now;
                   analysisResult := Some d |};
         loading := false;
         error := error st;
         analysisTriggered := analysisTriggered st;
         pollingAttempts := pollingAttempts st |}
  | Resolved _ _ message =>
      (* [throw new Error(results.message || 'Failed to load analysis results')] *)
      failed None (Some (or_else message (js "Failed to load analysis results")))
  | Thrown status message => failed status message
  end.

(** [fetchAnalysisResults(fileId)] called on its own (from
    [initAnalysis]). *)
Definition fetchAnalysisResults (now fileId : jsstring) (o : FetchOutcome) (p : Page)
  : Page :=
  let p := record (Fetched fileId) (commit p (fetch_prefix (state p))) in
  commit p (fetch_settle now fileId o (state p)).

(** The search parameters of the page URL. *)
Record SearchParams := {
  param_fileId : option jsstring;
  param_s3Key : option jsstring;
  param_s3Bucket : option jsstring;
  param_fileName : option jsstring
}.

(** The first effect: with a [fileId], trigger the analysis when the three
    other parameters are present, wait five seconds, then fetch once;
    without one, show an error. *)
Definition initAnalysis (now : jsstring) (sp : SearchParams) (trigger_ok : bool)
    (first : FetchOutcome) (p : Page) : Page :=
  match param_fileId sp with
  | Some fileId =>
      if truthy fileId then
        let p :=
          if truthy_opt (param_s3Key sp) && truthy_opt (param_s3Bucket sp)
             && truthy_opt (param_fileName sp)
          then record (Waited 5000) (triggerLambdaAnalysis fileId trigger_ok p)
          else p in
        fetchAnalysisResults now fileId first p
      else
        commit p {| selectedFile := selectedFile (state p); loading := false;
                    error := Some (js "No file ID provided");
                    analysisTriggered := analysisTriggered (state p);
                    pollingAttempts := pollingAttempts (state p) |}
  | None =>
      commit p {| selectedFile := selectedFile (state p); loading := false;
                  error := Some (js "No file ID provided");
                  analysisTriggered := analysisTriggered (state p);
                  pollingAttempts := pollingAttempts (state p) |}
  end.

(** The pending timeout fires after [ms] milliseconds: the callback bumps
    [pollingAttempts] and calls [fetchAnalysisResults], whose synchronous
    prefix lands in the same render. *)
Definition poll_timer_fires (fileId : jsstring) (ms : nat) (p : Page) : Page :=
  let fired := {| state := state p; pollTimer := None; log := log p ++ [Waited ms] |} in
  let st := state p in
  record (Fetched fileId)
    (commit fired
       (fetch_prefix {| selectedFile := selectedFile st; loading := loading st;
                        error := error st; analysisTriggered := analysisTriggered st;
                        pollingAttempts := S (pollingAttempts st) |})).

(** One polling round: the timeout fires and its request settles with
    [o].  Nothing happens without a pending timeout. *)
Definition poll_round (now fileId : jsstring) (o : FetchOutcome) (p : Page)
  : option Page :=
  match pollTimer p with
  | Some ms =>
      let p := poll_timer_fires fileId ms p in
      Some (commit p (fetch_settle now fileId o (state p)))
  | None => None
  end.

(** The page left alone while its requests settle with [outs], in order:
    rounds follow each other for as long as a timeout is pending. *)
Fixpoint polling (now fileId : jsstring) (outs : list FetchOutcome) (p : Page) : Page :=
  match outs with
  | [] => p
  | o :: outs =>
      match poll_round now fileId o p with
      | Some p' => polling now fileId outs p'
      | None => p
      end
  end.

(** A request that does not deliver a result. *)
Definition unavailable (o : FetchOutcome) : bool :=
  match o with
  | Resolved true (Some _) _ => false
  | _ => true
  end.

Definition fetches (l : list Event) : nat :=
  length (List.filter (fun e => match e with Fetched _ => true | _ => false end) l).

Definition waits (l : list Event) : list nat :=
  List.flat_map (fun e => match e with Waited ms => [ms] | _ => [] end) l.

(** The job states of the design, read off the page: a job exists once the
    trigger was acknowledged; it is merely triggered until the first
    request is sent; it is being polled while a request is in flight or
    the polling effect still re-arms its timeout; it is completed when a
    request has delivered the result; it has timed out when the error
    stays and the attempts are used up.  The page never tells a failed
    read from a missing result, so no page is [Failed]. *)
Inductive JobState :=
  NotTriggered | Triggered | Polling | Completed | Failed | TimedOut.

Definition job_state (p : Page) : JobState :=
  let st := state p in
  if negb (analysisTriggered st) then NotTriggered
  else if truthy_opt (error st) then
    if (pollingAttempts st <? 10)%nat then Polling else TimedOut
  else if loading st then
    if (fetches (log p) =? 0)%nat then Triggered else Polling
  else match selectedFile st with
       | Some f => if analysisResult f is Some _ then Completed else Triggered
       | None => Triggered
       end.

(** The page while the poller is at work, after [k] polling attempts: the
    trigger was acknowledged, the last request left an error, and the
    timeout is armed as long as attempts remain. *)
Definition polling_page (k : nat) (p : Page) : Prop :=
  analysisTriggered (state p) = true
  /\ truthy_opt (error (state p)) = true
  /\ pollingAttempts (state p) = k
  /\ pollTimer p = if (k <? 10)%nat then Some 5000%nat else None.

(** A sample visit: all four search parameters, and a results endpoint
    that keeps answering 404. *)
Definition sample_params : SearchParams :=
  {| param_fileId := Some (js "f1");
     param_s3Key := Some (js "uploads/f1/a.sh");
     param_s3Bucket := Some (js "sandia-jobs");
     param_fileName := Some (js "a.sh") |}.

Definition not_found : FetchOutcome :=
  Thrown (Some 404%nat) (Some (js "Analysis results not found. Analysis may still be in progress or failed.")).

Definition sample_page : Page :=
  initAnalysis (js "2024-01-15T10:45:05Z") sample_params true not_found mount.

End STATAPage.

(** ** Consensus of the three engines *)

Module Consensus.

(** *** The majority vote of the README ([consensus_verdict]) *)

Record StataResult := { stata_verdict : list N }.
Record ModelResult := { model_is_malicious : bool }.

(** The [votes] dictionary: one boolean per engine. *)
Record Votes := { vote_stata : bool; vote_gnn : bool; vote_bert : bool }.

Record ConsensusVerdict := {
  final_verdict : list N;
  agreement_level : nat;
  confidence : list N;
  individual_verdicts : Votes
}.

(** [confidence_map], a dictionary keyed by the number of malicious
    votes. *)
Definition confidence_map : gmap nat (list N) :=
  list_to_map [ (3%nat, js "High confidence (unanimous)");
                (2%nat, js "Medium confidence (majority)");
                (1%nat, js "Low confidence (minority)");
                (0%nat, js "High confidence benign (unanimous)") ].

(** [sum(votes.values())]: the number of true votes. *)
Definition count_true (l : list bool) : nat := length (List.filter id l).

(** [consensus_verdict]; [None] stands for the [KeyError] of a failed
    dictionary lookup.  [total_analyses / 2] is a true division. *)
Definition consensus_verdict (stata_result : StataResult)
    (gnn_result bert_result : ModelResult) : option ConsensusVerdict :=
  let votes := {| vote_stata := bool_decide (stata_verdict stata_result = js "MALICIOUS");
                  vote_gnn := model_is_malicious gnn_result;
                  vote_bert := model_is_malicious bert_result |} in
  let values := [vote_stata votes; vote_gnn votes; vote_bert votes] in
  let malicious_count := count_true values in
  let total_analyses := length values in
  let is_malicious :=
    Qle_bool (inject_Z (Z.of_nat total_analyses) / 2)%Q
             (inject_Z (Z.of_nat malicious_count)) in
  c ← confidence_map !! malicious_count;
  Some {| final_verdict := if is_malicious then js "MALICIOUS" else js "BENIGN";
          agreement_level := malicious_count;
          confidence := c;
          individual_verdicts := votes |}.

(** *** The consensus block of the three-way comparison view *)

(** A model result as the view reads it ([mlAnalysis], [bertAnalysis]). *)
Record MLAnalysis := {
  is_malicious : bool;
  risk_score : Q;
  ml_confidence : Q
}.

Record RiskAssessment := {
  verdict : option jsstring;
  risk_score_percentage : option Q
}.

(** The rule-based result [analysis]; [risk_assessment] may be missing. *)
Record StaticAnalysis := { risk_assessment : option RiskAssessment }.

Record ConsensusView := {
  maliciousCount : nat;
  totalAnalyses : nat;
  consensus : bool;
  headline : jsstring;
  detail : jsstring
}.

(** A small count as a JavaScript number. *)
Definition number (n : nat) : float := PrimFloat.of_uint63 (Uint63.of_nat n).

(** [analysis.risk_assessment?.verdict?.toUpperCase() === 'MALICIOUS']. *)
Definition stataMalicious (analysis : StaticAnalysis) : bool :=
  match risk_assessment analysis with
  | Some ra =>
      match verdict ra with
      | Some v => bool_decide (toUpperCase v = js "MALICIOUS")
      | None => false
      end
  | None => false
  end.

(** The immediately-invoked function of the "Consensus Analysis" panel.
    [mlAnalysis] and [bertAnalysis] are [null] until their engine has
    answered; the rule-based engine is always counted. *)
Definition three_way_consensus (mlAnalysis bertAnalysis : option MLAnalysis)
    (analysis : StaticAnalysis) : ConsensusView :=
  let gnnMalicious := from_option is_malicious false mlAnalysis in
  let bertMalicious := from_option is_malicious false bertAnalysis in
  let stata := stataMalicious analysis in
  let maliciousCount := count_true [gnnMalicious; bertMalicious; stata] in
  let totalAnalyses :=
    count_true [bool_decide (is_Some mlAnalysis); bool_decide (is_Some bertAnalysis); true] in
  let consensus := (0.5 <=? number maliciousCount / number totalAnalyses)%float in
  {| maliciousCount := maliciousCount;
     totalAnalyses := totalAnalyses;
     consensus := consensus;
     headline :=
       if (maliciousCount =? totalAnalyses)%nat then js "All Models Agree - MALICIOUS"
       else if (maliciousCount =? 0)%nat then js "All Models Agree - BENIGN"
       else if consensus then js "Majority Consensus - MALICIOUS"
       else js "Majority Consensus - BENIGN";
     detail :=
       if (maliciousCount =? totalAnalyses)%nat then js " High confidence in malicious verdict."
       else if (maliciousCount =? 0)%nat then js " High confidence file is benign."
       else js " Review individual analysis details for comprehensive assessment." |}.

(** The guard around the whole comparison:
    [(mlAnalysis || bertAnalysis) && analysis]. *)
Definition comparison_shown (mlAnalysis bertAnalysis : option MLAnalysis)
    (analysis : option StaticAnalysis) : bool :=
  (bool_decide (is_Some mlAnalysis) || bool_decide (is_Some bertAnalysis))
  && bool_decide (is_Some analysis).

(** The comparison as the page renders it,
    [{(mlAnalysis || bertAnalysis) && analysis && (...)}]: the guard wraps
    the whole block, the consensus panel included, so nothing is rendered
    ([None]) until the rule-based result and at least one model result are
    there. *)
Definition three_way_comparison (mlAnalysis bertAnalysis : option MLAnalysis)
    (analysis : option StaticAnalysis) : option ConsensusView :=
  if comparison_shown mlAnalysis bertAnalysis analysis
  then three_way_consensus mlAnalysis bertAnalysis <$> analysis
  else None.

(** *** The risk gauge of the STATA page *)

Inductive GaugeColour := Red | Yellow | Green.

(** The colour of the risk bar: [>= 60] red, [>= 35] yellow, green
    otherwise. *)
Definition gauge_colour (risk_score_percentage : Q) : GaugeColour :=
  if Qle_bool 60 risk_score_percentage then Red
  else if Qle_bool 35 risk_score_percentage then Yellow
  else Green.

(** *** The labels of the design *)

(** The confidence labels of the design's [ConsensusResult]. *)
Inductive ConfidenceLabel := Unanimous | Majority | Minority | NoData.

(** The label as the design words it, from the number of malicious votes
    and the number of reporting engines: no data without reporters,
    unanimous when none or all vote malicious, majority when at least half
    do (a tie included), minority otherwise. *)
Definition design_confidenceLabel (agreementCount totalReporting : nat)
  : ConfidenceLabel :=
  if (totalReporting =? 0)%nat then NoData
  else if (agreementCount =? 0)%nat || (agreementCount =? totalReporting)%nat then Unanimous
  else if (totalReporting <=? 2 * agreementCount)%nat then Majority
  else Minority.

(** The agreement level that a headline of the comparison view names. *)
Definition headline_label (h : jsstring) : option ConfidenceLabel :=
  if decide (h = js "All Models Agree - MALICIOUS") then Some Unanimous
  else if decide (h = js "All Models Agree - BENIGN") then Some Unanimous
  else if decide (h = js "Majority Consensus - MALICIOUS") then Some Majority
  else if decide (h = js "Majority Consensus - BENIGN") then Some Majority
  else None.

(** The agreement level that an entry of [confidence_map] names. *)
Definition confidence_label (c : list N) : option ConfidenceLabel :=
  if decide (c = js "High confidence (unanimous)") then Some Unanimous
  else if decide (c = js "Medium confidence (majority)") then Some Majority
  else if decide (c = js "Low confidence (minority)") then Some Minority
  else if decide (c = js "High confidence benign (unanimous)") then Some Unanimous
  else None.

(** *** Parts of the design without code in the repository *)

(** Modelled from the spec: the three engine kinds and the three risk
    categories of section 3 (the categories are also those of the page's
    [RiskAssessment] type). *)
Inductive EngineKind := RuleBased | Structural | Semantic.
Inductive Category := Safe | Suspicious | Malicious.

(** Modelled from the spec: the normalized [Verdict] of section 3; no
    module of the repository builds one. *)
Record Verdict := {
  engineKind : EngineKind;
  isMalicious : bool;
  riskScore : Q;
  verdict_confidence : Q;
  category : Category
}.

(** Modelled from the spec: the verdicts that reached the reduction,
    collected from the per-engine outcomes; an engine that did not report
    has no entry ([perEngineVerdicts], section 3). *)
Definition reporting (perEngine : EngineKind -> option Verdict)
    (engines : list EngineKind) : list Verdict :=
  omap perEngine engines.

(** Modelled from the spec: the sum of the reporting verdicts'
    [riskScore], the numerator of the mean below. *)
Definition sum_scores (verdicts : list Verdict) : Q :=
  List.fold_right (fun v acc => riskScore v + acc)%Q 0%Q verdicts.

(** Modelled from the spec: [combinedRiskScore] of section 4.3, the
    arithmetic mean of the reporting verdicts' [riskScore], and 0 when
    nothing reported.  The repository shows each engine's score in its own
    column and computes no mean. *)
Definition combinedRiskScore (verdicts : list Verdict) : Q :=
  match verdicts with
  | [] => 0%Q
  | _ :: _ => (sum_scores verdicts / inject_Z (Z.of_nat (length verdicts)))%Q
  end.

(** Modelled from the spec: a score as the scenarios of section 8 print
    it, with two decimals (rounded to the nearest hundredth). *)
Definition two_decimals (x : Q) : Q :=
  (inject_Z (Qfloor (x * 100 + (1 # 2))) / 100)%Q.

(** Modelled from the spec: the rule-based engine's weighted score of
    section 4.3 (60% threat patterns, 40% behaviour, as the README states
    it); the scoring function itself runs in the analysis Lambda, outside
    the repository's sources. *)
Definition weighted_score (threat_score behavioral_score : Q) : Q :=
  ((6 # 10) * threat_score + (4 # 10) * behavioral_score)%Q.

(** Modelled from the spec: the category thresholds of section 4.3. *)
Definition risk_category (score : Q) : Category :=
  if Qle_bool 60 score then Malicious
  else if Qle_bool 35 score then Suspicious
  else Safe.

(** *** Observations and sample inputs *)

(** The votes of the engines that the comparison view counts: one per
    model result that is present, and the rule-based vote. *)
Definition reporting_votes (mlAnalysis bertAnalysis : option MLAnalysis)
    (analysis : StaticAnalysis) : list bool :=
  option_list (is_malicious <$> mlAnalysis)
  ++ option_list (is_malicious <$> bertAnalysis)
  ++ [stataMalicious analysis].

(** The number of engines whose result the page holds. *)
Definition engines_reported (mlAnalysis bertAnalysis : option MLAnalysis)
    (analysis : option StaticAnalysis) : nat :=
  count_true [bool_decide (is_Some mlAnalysis); bool_decide (is_Some bertAnalysis);
              bool_decide (is_Some analysis)].

(** The headlines that announce a malicious verdict. *)
Definition headline_malicious (h : jsstring) : bool :=
  bool_decide (h = js "All Models Agree - MALICIOUS"
               \/ h = js "Majority Consensus - MALICIOUS").

Definition malicious_model : MLAnalysis :=
  {| is_malicious := true; risk_score := 80; ml_confidence := 9 # 10 |}.

Definition benign_model : MLAnalysis :=
  {| is_malicious := false; risk_score := 10; ml_confidence := 9 # 10 |}.

Definition stata_with (v : option jsstring) : StaticAnalysis :=
  {| risk_assessment := Some {| verdict := v; risk_score_percentage := Some 70%Q |} |}.

Definition stata_silent : StaticAnalysis := {| risk_assessment := None |}.

Definition verdict_of (score : Q) (malicious : bool) (k : EngineKind) : Verdict :=
  {| engineKind := k; isMalicious := malicious; riskScore := score;
     verdict_confidence := 1; category := risk_category score |}.

(** The scenario of the design: malicious, malicious, benign with scores
    80, 70 and 10. *)
Definition scenario_verdicts : list Verdict :=
  [verdict_of 80 true RuleBased; verdict_of 70 true Structural;
   verdict_of 10 false Semantic].

(** Two engines reported, the semantic one did not. *)
Definition two_reporting (k : EngineKind) : option Verdict :=
  match k with
  | RuleBased => Some (verdict_of 80 true RuleBased)
  | Structural => Some (verdict_of 70 true Structural)
  | Semantic => None
  end.

(** The weighted score in binary64 arithmetic; the two constants are the
    doubles nearest to 0.6 and 0.4. *)
Definition weighted_score_binary64 (threat_score behavioral_score : float) : float :=
  (0x1.3333333333333p-1 * threat_score + 0x1.999999999999ap-2 * behavioral_score)%float.

End Consensus.

(** ** [utils/fileValidation.js] and [middleware/upload.js]: validation *)

Module Validation.

(** The file as multer hands it to the filter: [size] is only known once
    the body has been read, so it may be [undefined]. *)
Record IncomingFile := {
  in_originalname : jsstring;
  in_mimetype : jsstring;
  in_size : option N
}.

(** The environment variables the validation reads: [MAX_FILE_SIZE] after
    [parseInt] ([None] for [NaN]) and [ALLOWED_FILE_TYPES]. *)
Record ValidationEnv := {
  MAX_FILE_SIZE : option Z;
  ALLOWED_FILE_TYPES : option jsstring
}.

Definition comma : N := 44.
Definition dquote : N := 34.

(** [parseInt(process.env.MAX_FILE_SIZE) || 104857600]. *)
Definition maxSize (env : ValidationEnv) : Z :=
  match MAX_FILE_SIZE env with
  | Some n => if (n =? 0)%Z then 104857600%Z else n
  | None => 104857600%Z
  end.

(** [process.env.ALLOWED_FILE_TYPES?.split(',') || []]. *)
Definition allowedTypes (env : ValidationEnv) : list jsstring :=
  match ALLOWED_FILE_TYPES env with
  | Some s => split comma s
  | None => []
  end.

Section Validate.

(** [mime.lookup], which answers [false] for an unknown extension, and the
    rendering of a number inside a template literal. *)
Variable mime_lookup : jsstring -> option jsstring.
Variable show_number : Q -> jsstring.

(** [mime.lookup(file.originalname) || file.mimetype]. *)
Definition fileType (file : IncomingFile) : jsstring :=
  or_else (mime_lookup (in_originalname file)) (in_mimetype file).

Definition size_error (env : ValidationEnv) : jsstring :=
  js "File size exceeds maximum limit of "
  ++ show_number (inject_Z (maxSize env) / 1024 / 1024)%Q ++ js "MB".

Definition type_error (file : IncomingFile) : jsstring :=
  js "File type '" ++ fileType file ++ js "' is not allowed".

Definition name_error : jsstring := js "Invalid filename".

(** The three checks of [validateFile], each as the condition under which
    its message is pushed. *)
Definition too_large (env : ValidationEnv) (file : IncomingFile) : bool :=
  match in_size file with
  | Some n => (maxSize env <? Z.of_N n)%Z
  | None => false
  end.

Definition type_refused (env : ValidationEnv) (file : IncomingFile) : bool :=
  (0 <? length (allowedTypes env))%nat
  && negb (bool_decide (fileType file ∈ allowedTypes env)).

Definition name_refused (file : IncomingFile) : bool :=
  negb (truthy (in_originalname file))
  || (255 <? length (in_originalname file))%nat.

(** [validateFile]: the pair [(isValid, errors)]. *)
Definition validateFile (env : ValidationEnv) (file : IncomingFile)
  : bool * list jsstring :=
  let errors :=
    (if too_large env file then [size_error env] else [])
    ++ (if type_refused env file then [type_error file] else [])
    ++ (if name_refused file then [name_error] else []) in
  (bool_decide (length errors = 0%nat), errors).

(** What the filter tells multer: accept the file, or fail with an
    [Error] carrying a message. *)
Inductive FilterResult :=
| Accept
| RejectWith (message : jsstring).

(** [fileFilter]. *)
Definition fileFilter (env : ValidationEnv) (file : IncomingFile) : FilterResult :=
  let validation := validateFile env file in
  if fst validation then Accept
  else RejectWith (join (js ", ") (snd validation)).

End Validate.

(** An error reaching [handleMulterError]: a [MulterError] with its code,
    or any other error with its (possibly empty or missing) message. *)
Inductive MiddlewareError :=
| MulterError (code message : jsstring)
| OtherError (message : option jsstring).

(** [handleMulterError]: the status, [error] and [message] of the answer,
    or [None] when the error is passed on with [next(error)].
    [limit_text] is the rendering of
    [process.env.MAX_FILE_SIZE / 1024 / 1024]. *)
Definition handleMulterError (limit_text : jsstring) (e : MiddlewareError)
  : option (nat * jsstring * jsstring) :=
  match e with
  | MulterError code message =>
      if decide (code = js "LIMIT_FILE_SIZE") then
        Some (400%nat, js "File size too large",
              js "Maximum file size is " ++ limit_text ++ js "MB")
      else if decide (code = js "LIMIT_FILE_COUNT") then
        Some (400%nat, js "Too many files", js "Only one file is allowed")
      else if decide (code = js "LIMIT_UNEXPECTED_FILE") then
        Some (400%nat, js "Unexpected file field",
              js "File field name must be " ++ [dquote] ++ js "file" ++ [dquote])
      else Some (400%nat, js "File upload error", message)
  | OtherError message =>
      if truthy_opt message
      then Some (400%nat, js "File validation error", default [] message)
      else None
  end.

End Validation.

(** ** The file selection page *)

Module FileSelection.

(** [getFileExtension]:
    [filename.split('.').pop()?.toLowerCase() || '']. *)
Definition getFileExtension (filename : jsstring) : jsstring :=
  or_else (toLowerCase <$> pop (split dot filename)) [].

(** The search parameters [handleProceed] builds for the STATA page from
    the selected entry of the listing ([x || ''] is [x] for a string).
    [s3Bucket] is the entry's [s3Bucket] field, the configured upload
    bucket when it is set. *)
Definition handleProceed (selected : Upload.FileEntry) (s3Bucket : option jsstring)
  : STATAPage.SearchParams :=
  {| STATAPage.param_fileId := Some (Upload.entry_id selected);
     STATAPage.param_s3Key := Some (Upload.entry_s3Key selected);
     STATAPage.param_s3Bucket := Some (or_else s3Bucket []);
     STATAPage.param_fileName :=
       Some (or_else (Some (Upload.entry_originalName selected))
               (Upload.entry_filename selected)) |}.

End FileSelection.

(** ** [routes/files.js]: details and deletion *)

Module Files.

Import Upload.

(** Outcome of a [ListObjectsV2Command]: the keys of [Contents] (none when
    [Contents] is missing), or a thrown error with its [name]. *)
Inductive ListOutcome :=
| Listed (contents : list jsstring)
| ListThrows (name : jsstring).

(** What S3 may answer to a listing of [b] under [prefix] with [MaxKeys]:
    distinct keys of the bucket that start with the prefix, all of them
    when they are at most [maxKeys], and [maxKeys] of them otherwise. *)
Definition s3_listing (b : bucket) (prefix : jsstring) (maxKeys : nat)
    (contents : list jsstring) : Prop :=
  NoDup contents
  /\ (forall k, k ∈ contents -> is_Some (b !! k) /\ prefix `prefix_of` k)
  /\ (length contents <= maxKeys)%nat
  /\ ((length contents < maxKeys)%nat ->
      forall k, is_Some (b !! k) -> prefix `prefix_of` k -> k ∈ contents).

(** The prefix under which the routes look for the objects of a job:
    [`${S3_CONFIG.uploadPath}${fileId}/`]. *)
Definition job_prefix (fileId : jsstring) : jsstring :=
  uploadPath ++ fileId ++ [slash].

Record DeleteData := {
  deleted_fileId : jsstring;
  deletedCount : nat;
  deletedKeys : list jsstring
}.

Inductive DeleteBody :=
| DeleteSuccess (data : DeleteData)
| DeleteFailure (error message : jsstring).

(** The [catch] block of [DELETE /:fileId]. *)
Definition delete_error (name : jsstring) : nat * DeleteBody :=
  if decide (name = js "CredentialsError") then
    (500%nat, DeleteFailure (js "AWS credentials error")
                (js "Unable to authenticate with AWS services"))
  else
    (500%nat, DeleteFailure (js "Failed to delete file")
                (js "An error occurred while deleting the file")).

(** The bucket after the [DeleteObjectCommand]s: every command is sent;
    [del k] is [None] when the one for [k] succeeds and the error name
    when it throws. *)
Definition apply_deletes (del : jsstring -> option jsstring) (keys : list jsstring)
    (b : bucket) : bucket :=
  foldr (fun k acc => if del k is None then delete k acc else acc) b keys.

(** The first command that throws, in the order of the listing. *)
Definition first_rejection (del : jsstring -> option jsstring) (keys : list jsstring)
  : option jsstring :=
  head (omap del keys).

(** [DELETE /:fileId]. *)
Definition delete_file (b : bucket) (fileId : jsstring) (listing : ListOutcome)
    (del : jsstring -> option jsstring) : bucket * (nat * DeleteBody) :=
  match listing with
  | ListThrows name => (b, delete_error name)
  | Listed [] =>
      (b, (404%nat, DeleteFailure (js "File not found")
                      (js "No file found with the specified ID")))
  | Listed contents =>
      let b' := apply_deletes del contents b in
      match first_rejection del contents with
      | Some name => (b', delete_error name)
      | None =>
          (b', (200%nat,
                DeleteSuccess {| deleted_fileId := fileId;
                                 deletedCount := length contents;
                                 deletedKeys := contents |}))
      end
  end.

Inductive DetailsBody :=
| DetailsSuccess (info : FileEntry)
| DetailsFailure (error message : jsstring).

(** [GET /:fileId]: the first listed object of the job, described like an
    entry of the listing but with [id] and [jobId] taken from the request.
    [head] is the answer to the [GetObjectCommand], [None] when it
    throws. *)
Definition get_file_details (fileId : jsstring) (listing : ListOutcome)
    (head : option S3Object) : nat * DetailsBody :=
  match listing with
  | ListThrows _ =>
      (500%nat, DetailsFailure (js "Failed to fetch file")
                  (js "Unable to retrieve file details"))
  | Listed [] =>
      (404%nat, DetailsFailure (js "File not found")
                  (js "No file found with the specified ID"))
  | Listed (key :: _) =>
      match head with
      | None =>
          (500%nat, DetailsFailure (js "Failed to fetch file")
                      (js "Unable to retrieve file details"))
      | Some obj =>
          let pathParts := split slash key in
          let filename :=
            or_else (pathParts !! 2%nat) (default [] (pop (split slash key))) in
          (200%nat,
           DetailsSuccess
             {| entry_id := fileId;
                entry_filename := filename;
                entry_originalName := or_else (Some (meta_originalName obj)) filename;
                entry_status := js "uploaded";
                entry_jobId := Some fileId;
                entry_fileType := or_else (Some (ContentType obj)) (js "unknown");
                entry_s3Key := key |})
      end
  end.

End Files.

(** ** [routes/analysis.js]: results and status *)

Module AnalysisResults.

Import Analysis STATAPage.

(** What [JSON.parse] makes of a stored result: a syntax error, a value
    that is falsy in JavaScript ([null], [0], [false], the empty string),
    or an object, of which the fields that the page reads are kept. *)
Inductive Parsed :=
| SyntaxError
| FalsyValue
| ObjectValue (d : ResultData).

Inductive ResultsBody :=
| ResultsSuccess (message : jsstring) (data : option ResultData)
| ResultsFailure (error message : jsstring).

(** The [catch] block of [GET /results/:fileId], by the name of the
    error. *)
Definition results_error (name : jsstring) : nat * ResultsBody :=
  if decide (name = js "NoSuchKey") then
    (404%nat, ResultsFailure (js "Results not found")
                (js "Analysis results not found. Analysis may still be in progress or failed."))
  else if decide (name = js "NoSuchBucket") then
    (500%nat, ResultsFailure (js "Configuration error")
                (js "Results storage bucket not found. Please contact administrator."))
  else if decide (name = js "CredentialsError" \/ name = js "UnauthorizedOperation") then
    (500%nat, ResultsFailure (js "Access denied")
                (js "Unable to access analysis results storage"))
  else
    (500%nat, ResultsFailure (js "Failed to fetch results")
                (js "An error occurred while retrieving analysis results")).

(** [GET /results/:fileId].  [fault] is the name of the error with which
    S3 fails the request for a reason other than a missing object (no
    bucket, no credentials), if it does. *)
Definition get_results (parse : jsstring -> Parsed) (w : World) (fileId : jsstring)
    (fault : option jsstring) : nat * ResultsBody :=
  if negb (truthy fileId) then
    (400%nat, ResultsFailure (js "Missing file ID")
                (js "File ID parameter is required"))
  else
    match fault with
    | Some name => results_error name
    | None =>
        match results w !! result_key fileId with
        | None => results_error (js "NoSuchKey")
        | Some text =>
            match parse text with
            | SyntaxError => results_error (js "SyntaxError")
            | FalsyValue =>
                (200%nat, ResultsSuccess (js "Analysis results retrieved successfully") None)
            | ObjectValue d =>
                (200%nat, ResultsSuccess (js "Analysis results retrieved successfully") (Some d))
            end
        end
    end.

Inductive StatusBody :=
| StatusSuccess (fileId status : jsstring)
| StatusFailure (error message : jsstring).

(** [GET /status/:fileId]. *)
Definition get_analysis_status (w : World) (fileId : jsstring) (fault : option jsstring)
  : nat * StatusBody :=
  if negb (truthy fileId) then
    (400%nat, StatusFailure (js "Missing file ID")
                (js "File ID parameter is required"))
  else
    match fault with
    | Some name =>
        if decide (name = js "NoSuchKey")
        then (200%nat, StatusSuccess fileId (js "pending"))
        else (500%nat, StatusFailure (js "Status check failed")
                         (js "Unable to check analysis status"))
    | None =>
        match results w !! result_key fileId with
        | Some _ => (200%nat, StatusSuccess fileId (js "completed"))
        | None => (200%nat, StatusSuccess fileId (js "pending"))
        end
    end.

(** [s.replace(pat, rep)] for a string pattern: the first occurrence, if
    any, is replaced. *)
Fixpoint replace_first (pat rep s : jsstring) : jsstring :=
  if bool_decide (pat `prefix_of` s) then rep ++ drop (length pat) s
  else match s with
       | [] => []
       | c :: rest => c :: replace_first pat rep rest
       end.

(** The [fileId] that [GET /results] reports for a listed object:
    [obj.Key.replace('.json', '')]. *)
Definition listed_fileId (key : jsstring) : jsstring :=
  replace_first (js ".json") [] key.

(** The Lambda, done with [fileId], writes its result object. *)
Definition write_result (fileId text : jsstring) (w : World) : World :=
  {| invocations := invocations w;
     results := <[result_key fileId := text]> (results w) |}.

End AnalysisResults.

(** ** [services/api.ts] *)

Module Api.

Import STATAPage AnalysisResults.

(** The [message] of a response body. *)
Definition body_message (body : ResultsBody) : jsstring :=
  match body with
  | ResultsSuccess message _ => message
  | ResultsFailure _ message => message
  end.

(** [getAnalysisResults] on top of the backend's answer: axios resolves
    with the body of a 2xx response and throws on any other status; the
    wrapper rethrows
    [{ message: error.response?.data?.message || 'Failed to fetch analysis results',
       status: error.response?.status || 500 }].  [None] is a request
    that got no response at all. *)
Definition getAnalysisResults (response : option (nat * ResultsBody)) : FetchOutcome :=
  match response with
  | Some (status, body) =>
      if (200 <=? status)%nat && (status <? 300)%nat then
        match body with
        | ResultsSuccess message data => Resolved true data (Some message)
        | ResultsFailure _ message => Resolved false None (Some message)
        end
      else
        Thrown (Some (if (status =? 0)%nat then 500%nat else status))
               (Some (or_else (Some (body_message body))
                        (js "Failed to fetch analysis results")))
  | None => Thrown (Some 500%nat) (Some (js "Failed to fetch analysis results"))
  end.

Definition tilde : N := 126.

(** The code units that a URL path carries as they are and that mean
    nothing to it: letters, digits, [-], [.], [_] and [~]. *)
Definition unreserved (c : N) : bool :=
  is_lower c || is_upper c || is_digit c
  || (c =? hyphen) || (c =? dot) || (c =? underscore) || (c =? tilde).

(** [getAnalysisResults] requests [`/analysis/results/${fileId}`]: the
    identifier is written into the path as it is, without
    [encodeURIComponent].  A non-empty identifier of unreserved code units
    other than the dot segments [.] and [..] is one path segment, and the
    route [/results/:fileId] receives it unchanged. *)
Definition url_safe (fileId : jsstring) : bool :=
  truthy fileId && forallb unreserved fileId
  && negb (bool_decide (fileId = js ".")) && negb (bool_decide (fileId = js "..")).

(** What a page sees when it asks the backend, in world [w], for the
    results of [fileId].  For a [url_safe] identifier the handler of
    [GET /results/:fileId] answers for that identifier.  Any other
    identifier reaches the server changed, or reaches another route, or
    none: [?] and [#] end the path, [/] opens a further segment, [%]
    starts an escape that the router decodes, dot segments are resolved,
    other code units are escaped.  That is the work of the URL parser and
    of the router, which are not part of the repository; [elsewhere] is
    the outcome of such a request. *)
Definition fetch_from (parse : jsstring -> Parsed)
    (elsewhere : jsstring -> Analysis.World -> FetchOutcome)
    (fileId : jsstring) (w : Analysis.World) : FetchOutcome :=
  if url_safe fileId
  then getAnalysisResults (Some (get_results parse w fileId None))
  else elsewhere fileId w.

End Api.

(** ** [routes/ml.js]: the model analyses *)

Module ML.

Import Upload.







End ML.

(** ** Small helpers of the pages *)

Module PageHelpers.

(** [toggleExpanded], the updater it passes to [setExpandedItems]: a copy
    of the set with [index] removed when it was there and added when it
    was not. *)
Definition toggleExpanded (index : nat) (prev : gset nat) : gset nat :=
  if bool_decide (index ∈ prev) then prev ∖ {[index]} else prev ∪ {[index]}.

(** The body that [triggerAnalysis] posts for the search parameters of
    the page. *)
Definition trigger_body (sp : STATAPage.SearchParams) : Analysis.TriggerBody :=
  {| Analysis.body_s3Key := STATAPage.param_s3Key sp;
     Analysis.body_s3Bucket := STATAPage.param_s3Bucket sp;
     Analysis.body_fileName := STATAPage.param_fileName sp |}.

End PageHelpers.

(** ** Further sample inputs *)

Module Samples.

Import Upload Analysis STATAPage Consensus AnalysisResults.

(** A second upload, with another job identifier. *)
Definition sample_env2 : UploadEnv :=
  {| uuid := js "9b2d1c3e-5f60-4a7b-8c9d-0e1f2a3b4c5d";
     timestamp := js "1700000005000";
     randomString := js "q8w2e";
     isoNow := js "2023-11-14T22:13:25.000Z" |}.

Definition sample_file2 : MulterFile :=
  {| originalname := js "cleanup.sh"; buffer := js "rm -rf /tmp/x";
     mimetype := js "application/x-sh"; size := 13 |}.

(** The key and the object of the first sample upload. *)
Definition sample_key : jsstring :=
  s3Key (uuid sample_env)
    (generateUniqueFilename (timestamp sample_env) (randomString sample_env)
       (sanitizeFilename (originalname sample_file))).

Definition sample_object : S3Object :=
  {| Body := buffer sample_file; ContentType := mimetype sample_file;
     meta_originalName := originalname sample_file; meta_jobId := uuid sample_env;
     meta_uploadTimestamp := isoNow sample_env; meta_fileSize := size sample_file |}.

(** A stored result and a parser that reads it. *)
Definition sample_data : ResultData :=
  {| metadata_filename := Some (js "a.sh");
     metadata_size_bytes := Some 11%N;
     metadata_file_type := Some (js "Shell Script");
     result_timestamp := Some (js "2024-01-15T10:45:30Z") |}.

Definition sample_parse (text : jsstring) : Parsed :=
  if decide (text = js "{}") then ObjectValue sample_data else SyntaxError.

(** The results endpoint answers 404 twice, then delivers. *)
Definition sample_outcomes : list FetchOutcome :=
  [not_found; not_found;
   Resolved true (Some sample_data) (Some (js "Analysis results retrieved successfully"));
   not_found].

(** A visit with a file identifier only. *)
Definition bare_params : SearchParams :=
  {| param_fileId := Some (js "f1"); param_s3Key := None;
     param_s3Bucket := None; param_fileName := None |}.

(** The model results of the view that correspond to the three results
    handed to the vote of the README. *)
Definition as_model (r : ModelResult) : MLAnalysis :=
  {| is_malicious := model_is_malicious r; risk_score := 0; ml_confidence := 0 |}.

Definition as_analysis (s : StataResult) : StaticAnalysis :=
  {| risk_assessment :=
       Some {| verdict := Some (stata_verdict s); risk_score_percentage := None |} |}.

End Samples.

(** * Properties *)

Import Upload Analysis STATAPage Consensus.

(** ** Worked examples *)

Example sanitize_ex1 :
  sanitizeFilename (js "My  File__(1).SH") = js "my_file_1_.sh".
Proof. vm_compute. reflexivity. Qed.

Example unique_ex1 :
  generateUniqueFilename (js "1700000000000") (js "k3j9x") (js "a.tar.gz")
  = js "1700000000000-k3j9x-a.tar.gz".
Proof. vm_compute. reflexivity. Qed.

Example unique_ex2 :
  generateUniqueFilename (js "17") (js "k") (js "noext") = js "17-k-.noext".
Proof. vm_compute. reflexivity. Qed.

Example split_ex1 :
  split slash (js "uploads/abc/x.sh") = [js "uploads"; js "abc"; js "x.sh"].
Proof. vm_compute. reflexivity. Qed.

Example split_ex2 : split slash (js "") = [[]].
Proof. reflexivity. Qed.

Example file_entry_fallback_id :
  entry_id (file_entry (js "uploads") None) = js "uploads"
  /\ entry_jobId (file_entry (js "uploads") None) = None.
Proof. vm_compute. split; reflexivity. Qed.

(** ** [sanitizeFilename] *)

Section Sanitize.

Lemma replace_outside_single cls r s :
  replace_outside cls [r] s = List.map (fun c => if cls c then c else r) s.
Proof.
  unfold replace_outside. induction s as [|c s IH]; simpl; [reflexivity|].
  rewrite IH. destruct (cls c); reflexivity.
Qed.

Lemma run_length_head c rest :
  (2 <=? run_length (c :: rest))%nat = true -> c = underscore.
Proof.
  simpl. destruct (N.eqb_spec c underscore); [done | discriminate].
Qed.

Lemma run_length_drop s :
  head (drop (run_length s) s) ≠ Some underscore.
Proof.
  induction s as [|c s IH]; simpl; [done|].
  destruct (N.eqb_spec c underscore); simpl; [exact IH | congruence].
Qed.

(** Case analysis along the clauses of [replace_underscore_runs], keeping
    only the induction hypotheses and the test of the clause. *)
Ltac runs_cases s :=
  funelim (replace_underscore_runs s);
  repeat match goal with
         | H : replace_underscore_runs _ = _ |- _ => fail 1
         | H : _ = replace_underscore_runs _ |- _ => clear H
         | H : @eq (sigma _) _ _ |- _ => clear H
         end.

Lemma replace_underscore_runs_head s :
  head (replace_underscore_runs s) = head s.
Proof.
  runs_cases s; [done|..].
  - simpl. f_equal. symmetry. eapply run_length_head, e.
  - reflexivity.
Qed.

Lemma replace_underscore_runs_Forall (P : N -> Prop) s :
  Forall P s -> Forall P (replace_underscore_runs s).
Proof.
  runs_cases s; intros HP; [done|..].
  - constructor.
    + apply run_length_head in e. subst c. by inversion HP.
    + apply H. by apply Forall_drop.
  - inversion HP; subst. constructor; auto.
Qed.

Lemma replace_underscore_runs_no_runs s :
  no_runs (replace_underscore_runs s) = true.
Proof.
  runs_cases s; [done|..].
  - pose proof (replace_underscore_runs_head (drop (run_length (c :: rest)) (c :: rest))) as Hh.
    pose proof (run_length_drop (c :: rest)) as Hd.
    destruct (replace_underscore_runs (drop (run_length (c :: rest)) (c :: rest)))
      as [|b t] eqn:E; [done|].
    cbn [no_runs]. cbn [no_runs] in H. rewrite H, andb_true_r.
    rewrite <- Hh in Hd. cbn [head] in Hd.
    destruct (N.eqb_spec b underscore); [congruence|].
    by rewrite andb_false_r.
  - pose proof (replace_underscore_runs_head rest) as Hh.
    destruct (replace_underscore_runs rest) as [|b t] eqn:E; [done|].
    cbn [no_runs]. cbn [no_runs] in H. rewrite H, andb_true_r.
    destruct rest as [|b' rest']; [done|]. simpl in Hh. injection Hh as ->.
    simpl in e. destruct (c =? underscore); [|done].
    destruct (b' =? underscore); [discriminate|done].
Qed.

Lemma replace_underscore_runs_id s :
  no_runs s = true -> replace_underscore_runs s = s.
Proof.
  runs_cases s; intros Hn; [done|..].
  - exfalso. destruct rest as [|b rest']; simpl in e.
    + by destruct (c =? underscore).
    + cbn [no_runs] in Hn. destruct (c =? underscore); [|done].
      destruct (b =? underscore); [|done]. done.
  - f_equal. apply H. destruct rest; [done|].
    cbn [no_runs] in Hn. by apply andb_prop in Hn as [_ ?].
Qed.

Lemma lower_unit_underscore c :
  (lower_unit c =? underscore) = (c =? underscore).
Proof.
  unfold lower_unit, is_upper, in_range, underscore.
  destruct (65 <=? c) eqn:E1, (c <=? 90) eqn:E2; simpl; try reflexivity.
  apply N.leb_le in E1, E2.
  destruct (N.eqb_spec (c + 32) 95), (N.eqb_spec c 95); try reflexivity; lia.
Qed.

Lemma no_runs_cons a b t :
  no_runs (a :: b :: t)
  = negb ((a =? underscore) && (b =? underscore)) && no_runs (b :: t).
Proof. reflexivity. Qed.

Lemma toLowerCase_no_runs s : no_runs (toLowerCase s) = no_runs s.
Proof.
  induction s as [|a s IH]; [done|]. destruct s as [|b t]; [done|].
  change (toLowerCase (a :: b :: t))
    with (lower_unit a :: lower_unit b :: toLowerCase t).
  change (toLowerCase (b :: t)) with (lower_unit b :: toLowerCase t) in IH.
  rewrite !no_runs_cons, IH, !lower_unit_underscore. reflexivity.
Qed.

Lemma clean_after_lower c :
  filename_unit c = true \/ c = underscore -> clean_unit (lower_unit c) = true.
Proof.
  unfold filename_unit, clean_unit, lower_unit.
  intros [H| ->]; [|reflexivity].
  destruct (is_upper c) eqn:E.
  - assert (is_lower (c + 32) = true) as ->; [|reflexivity].
    unfold is_upper, is_lower, in_range in *.
    apply andb_true_iff in E as [E1%N.leb_le E2%N.leb_le].
    apply andb_true_iff. split; apply N.leb_le; lia.
  - rewrite orb_false_r in H.
    destruct (is_lower c), (is_digit c), (c =? dot), (c =? hyphen); done.
Qed.

Lemma clean_fixed c :
  clean_unit c = true ->
  (if filename_unit c then c else underscore) = c /\ lower_unit c = c.
Proof.
  unfold filename_unit, clean_unit, lower_unit, is_lower, is_upper, is_digit,
    in_range, dot, hyphen, underscore.
  intros H.
  repeat match goal with
         | |- context [?a <=? ?b] => destruct (N.leb_spec a b)
         | |- context [?a =? ?b] => destruct (N.eqb_spec a b)
         | H : context [?a <=? ?b] |- _ => destruct (N.leb_spec a b)
         | H : context [?a =? ?b] |- _ => destruct (N.eqb_spec a b)
         end; simpl in *; try discriminate; split; try reflexivity; try lia.
Qed.

Lemma sanitizeFilename_clean s :
  Forall (fun c => clean_unit c = true) (sanitizeFilename s).
Proof.
  unfold sanitizeFilename, toLowerCase. rewrite Forall_forall. intros c Hc.
  apply list_elem_of_In, in_map_iff in Hc as (c0 & <- & Hc0).
  apply clean_after_lower.
  revert c0 Hc0. apply List.Forall_forall.
  apply replace_underscore_runs_Forall.
  rewrite replace_outside_single. apply List.Forall_forall.
  intros x Hx. apply in_map_iff in Hx as (y & <- & _).
  destruct (filename_unit y) eqn:E; auto.
Qed.

Lemma sanitizeFilename_no_runs s : no_runs (sanitizeFilename s) = true.
Proof.
  unfold sanitizeFilename.
  by rewrite toLowerCase_no_runs, replace_underscore_runs_no_runs.
Qed.

Lemma replace_outside_clean t :
  Forall (fun c => clean_unit c = true) t ->
  replace_outside filename_unit [underscore] t = t.
Proof.
  intros Hc. rewrite replace_outside_single.
  induction Hc as [|c t Hcc _ IH]; [done|].
  simpl. rewrite IH. f_equal. by apply clean_fixed.
Qed.

Lemma toLowerCase_clean t :
  Forall (fun c => clean_unit c = true) t -> toLowerCase t = t.
Proof.
  intros Hc. unfold toLowerCase.
  induction Hc as [|c t Hcc _ IH]; [done|].
  simpl. rewrite IH. f_equal. by apply clean_fixed.
Qed.

Lemma sanitizeFilename_fixed t :
  Forall (fun c => clean_unit c = true) t -> no_runs t = true ->
  sanitizeFilename t = t.
Proof.
  intros Hc Hn. unfold sanitizeFilename.
  rewrite replace_outside_clean, replace_underscore_runs_id by done.
  by apply toLowerCase_clean.
Qed.

(** C10. [sanitizeFilename] is idempotent: sanitizing a sanitized name
    gives it back.  The output holds only lower-case letters, digits, dots,
    hyphens and underscores, never two underscores in a row, and the
    function maps every such string to itself. *)
Theorem sanitizeFilename_idempotent (filename : jsstring) :
  sanitizeFilename (sanitizeFilename filename) = sanitizeFilename filename
  /\ Forall (fun c => clean_unit c = true) (sanitizeFilename filename)
  /\ no_runs (sanitizeFilename filename) = true.
Proof.
  split; [|split].
  - apply sanitizeFilename_fixed;
      [apply sanitizeFilename_clean | apply sanitizeFilename_no_runs].
  - apply sanitizeFilename_clean.
  - apply sanitizeFilename_no_runs.
Qed.

End Sanitize.

(** ** Upload keys and the file listing *)

Section UploadKeys.

Lemma split_nonempty sep s : split sep s ≠ [].
Proof.
  destruct s as [|c s]; simpl; [done|].
  destruct (c =? sep); [done|]. by destruct (split sep s).
Qed.

Lemma split_segment sep (a rest : jsstring) :
  sep ∉ a -> split sep (a ++ sep :: rest) = a :: split sep rest.
Proof.
  induction a as [|c a IH]; intros Hn; simpl.
  - by rewrite N.eqb_refl.
  - apply not_elem_of_cons in Hn as [Hc Ha].
    destruct (N.eqb_spec c sep); [congruence|].
    by rewrite IH.
Qed.

Lemma uuid_shape_units j :
  uuid_shape j = true -> j ≠ [] /\ slash ∉ j.
Proof.
  unfold uuid_shape. intros [Hlen Hall]%andb_prop. split.
  - intros ->. discriminate.
  - intros Hin. apply list_elem_of_lookup in Hin as [i Hi].
    rewrite forallb_forall in Hall.
    specialize (Hall (i, slash)). simpl in Hall.
    assert (uuid_unit_ok i slash = true) as Hok.
    { apply Hall. apply list_elem_of_In, list_elem_of_lookup. exists i.
      by rewrite list_lookup_imap, Hi. }
    unfold uuid_unit_ok in Hok. destruct (decide _); vm_compute in Hok; discriminate.
Qed.

Lemma key_segments jobId uniqueFilename :
  slash ∉ jobId ->
  split slash (s3Key jobId uniqueFilename)
  = js "uploads" :: jobId :: split slash uniqueFilename.
Proof.
  intros Hn. unfold s3Key, uploadPath.
  change (js "uploads/") with (js "uploads" ++ [slash]).
  rewrite <- app_assoc. simpl ([slash] ++ _).
  rewrite split_segment
    by (intros Hin%list_elem_of_In; vm_compute in Hin; intuition discriminate).
  change ([slash] ++ uniqueFilename) with (slash :: uniqueFilename).
  by rewrite split_segment.
Qed.

Lemma file_entry_id key head :
  entry_id (file_entry key head)
  = or_else (split slash key !! 1%nat) (replace_outside alnum_unit [] key)
  /\ entry_jobId (file_entry key head) = split slash key !! 1%nat
  /\ entry_s3Key (file_entry key head) = key.
Proof. by destruct head. Qed.

(** C9. Round trip of the upload key: an accepted upload stores its object
    under [uploadPath ++ jobId ++ "/" ++ filename] with the identifier just
    drawn from [uuidv4()], and the listing callback, which takes the second
    segment of the key, reports that same identifier as [id] and [jobId],
    whether or not the metadata request succeeds. *)
Theorem upload_key_round_trip (b : bucket) (file : MulterFile) (env : UploadEnv)
    (etag : jsstring) :
  uuid_shape (uuid env) = true ->
  exists data,
    snd (post_file b (Some file) env (S3Ok etag))
    = (200%nat, UploadSuccess (js "File uploaded successfully") data)
    /\ data_jobId data = uuid env
    /\ data_s3Key data = uploadPath ++ data_jobId data ++ [slash] ++ data_filename data
    /\ is_Some (fst (post_file b (Some file) env (S3Ok etag)) !! data_s3Key data)
    /\ split slash (data_s3Key data) !! 1%nat = Some (data_jobId data)
    /\ forall head,
         entry_id (file_entry (data_s3Key data) head) = data_jobId data
         /\ entry_jobId (file_entry (data_s3Key data) head) = Some (data_jobId data).
Proof.
  intros [Hne Hslash]%uuid_shape_units.
  eexists. split; [reflexivity|]. cbn [data_jobId data_s3Key data_filename].
  split; [reflexivity|]. split; [reflexivity|].
  split; [cbn [fst post_file]; by rewrite lookup_insert_eq|].
  rewrite key_segments by done. split; [reflexivity|].
  intros head. destruct (file_entry_id (s3Key (uuid env)
    (generateUniqueFilename (timestamp env) (randomString env)
       (sanitizeFilename (originalname file)))) head) as (-> & -> & _).
  rewrite key_segments by done. cbn [lookup list_lookup or_else].
  split; [|reflexivity].
  simpl. destruct (uuid env); [done|reflexivity].
Qed.

(** The round trip on the sample upload. *)
Lemma upload_key_round_trip_witness :
  uuid_shape (uuid sample_env) = true
  /\ exists data,
    snd (post_file ∅ (Some sample_file) sample_env (S3Ok (js "etag")))
    = (200%nat, UploadSuccess (js "File uploaded successfully") data)
    /\ data_jobId data = uuid sample_env
    /\ data_s3Key data = uploadPath ++ data_jobId data ++ [slash] ++ data_filename data
    /\ is_Some (fst (post_file ∅ (Some sample_file) sample_env (S3Ok (js "etag")))
                  !! data_s3Key data)
    /\ split slash (data_s3Key data) !! 1%nat = Some (data_jobId data)
    /\ forall head,
         entry_id (file_entry (data_s3Key data) head) = data_jobId data
         /\ entry_jobId (file_entry (data_s3Key data) head) = Some (data_jobId data).
Proof.
  split; [vm_compute; reflexivity|].
  apply (upload_key_round_trip ∅ sample_file sample_env (js "etag")).
  vm_compute; reflexivity.
Defined.

(** C8. The upload status query answers 200 with [success], the status
    ['uploaded'] and the identifier it was asked about, for every
    identifier; it leaves the bucket alone and its answer is the same over
    any two buckets, so it does not depend on any stored job. *)
Theorem get_status_constant (b1 b2 : bucket) (jobId : jsstring) :
  get_status b1 jobId
  = (b1, (200%nat, (true, {| status_jobId := jobId;
                             status_status := js "uploaded";
                             status_message := js "File upload completed successfully" |})))
  /\ snd (get_status b1 jobId) = snd (get_status b2 jobId).
Proof. split; reflexivity. Qed.

End UploadKeys.

(** ** Triggering an analysis *)

Section Trigger.

Lemma running_jobs_cons w payload fileId :
  results w !! result_key fileId = None ->
  payload_fileId payload = fileId ->
  running_jobs {| invocations := payload :: invocations w; results := results w |} fileId
  = payload :: running_jobs w fileId.
Proof.
  intros Hr Hp. unfold running_jobs. cbn [results invocations]. rewrite Hr.
  cbn [List.filter]. by rewrite bool_decide_eq_true_2.
Qed.

(** C7, as the code has it.  [POST /trigger/:fileId] has no idempotency
    guard: a request that carries a file id, a key and a bucket, and that
    Lambda accepts, is answered 202 and starts one more analysis of that
    file, next to whatever analyses of it are still running. *)
Theorem trigger_always_invokes (w : World) (fileId : jsstring) (body : TriggerBody)
    (isoNow : jsstring) (code : nat) :
  truthy fileId = true ->
  truthy_opt (body_s3Key body) = true ->
  truthy_opt (body_s3Bucket body) = true ->
  results w !! result_key fileId = None ->
  let w' := fst (post_trigger w fileId body isoNow (LambdaAccepted code)) in
  snd (post_trigger w fileId body isoNow (LambdaAccepted code))
  = (202%nat, TriggerProcessing fileId (js "processing") code)
  /\ length (invocations w') = S (length (invocations w))
  /\ length (running_jobs w' fileId) = S (length (running_jobs w fileId)).
Proof.
  intros Hf Hk Hb Hr w'. subst w'. unfold post_trigger.
  rewrite Hf, Hk, Hb. cbn [negb orb fst snd].
  split; [reflexivity|]. split; [reflexivity|].
  by rewrite running_jobs_cons.
Qed.

(** The second trigger of the sample file. *)
Lemma trigger_always_invokes_witness :
  results triggered_once !! result_key (js "f1") = None
  /\ snd (post_trigger triggered_once (js "f1") sample_body (js "2024-01-15T10:45:02Z")
            (LambdaAccepted 202))
     = (202%nat, TriggerProcessing (js "f1") (js "processing") 202%nat)
  /\ length (invocations triggered_twice) = S (length (invocations triggered_once))
  /\ length (running_jobs triggered_twice (js "f1"))
     = S (length (running_jobs triggered_once (js "f1"))).
Proof.
  split; [vm_compute; reflexivity|].
  apply (trigger_always_invokes triggered_once (js "f1") sample_body
           (js "2024-01-15T10:45:02Z") 202); vm_compute; reflexivity.
Defined.

(** C7, as the design states it, fails: after one trigger the analysis of
    the sample file is running (status ['pending']); triggering it again
    leaves two running analyses of the same file, not one. *)
Lemma retrigger_starts_second_job :
  length (running_jobs triggered_once (js "f1")) = 1%nat
  /\ analysis_status triggered_once (js "f1") = js "pending"
  /\ length (running_jobs triggered_twice (js "f1")) = 2%nat
  /\ ~ (length (running_jobs triggered_twice (js "f1")) <= 1)%nat.
Proof.
  assert (length (running_jobs triggered_twice (js "f1")) = 2%nat) as H2
    by (vm_compute; reflexivity).
  split; [vm_compute; reflexivity|]. split; [vm_compute; reflexivity|].
  split; [exact H2 | rewrite H2; lia].
Qed.

End Trigger.

(** ** Polling for results *)

Section Polling.

Variables now fileId : jsstring.

Lemma catch_message_truthy status message :
  truthy (catch_message status message) = true.
Proof.
  unfold catch_message. destruct (decide _); [reflexivity|].
  destruct message as [[|c m]|]; reflexivity.
Qed.

Lemma fetch_settle_unavailable o st :
  unavailable o = true ->
  exists msg,
    truthy msg = true
    /\ error (fetch_settle now fileId o st) = Some msg
    /\ analysisTriggered (fetch_settle now fileId o st) = analysisTriggered st
    /\ pollingAttempts (fetch_settle now fileId o st) = pollingAttempts st
    /\ loading (fetch_settle now fileId o st) = false.
Proof.
  intros Hu. destruct o as [[] [d|] m | status m]; try discriminate; simpl;
    eexists; (split; [apply catch_message_truthy|done]).
Qed.

Lemma commit_changed p st' :
  polling_deps (state p) ≠ polling_deps st' ->
  commit p st' = {| state := st'; pollTimer := polling_effect st'; log := log p |}.
Proof. intros H. unfold commit. by destruct (decide _). Qed.

Lemma polling_effect_prefix st : polling_effect (fetch_prefix st) = None.
Proof.
  unfold polling_effect, fetch_prefix. cbn.
  by rewrite andb_false_r.
Qed.

Lemma poll_timer_fires_spec ms p :
  poll_timer_fires fileId ms p
  = {| state := fetch_prefix
                  {| selectedFile := selectedFile (state p);
                     loading := loading (state p);
                     error := error (state p);
                     analysisTriggered := analysisTriggered (state p);
                     pollingAttempts := S (pollingAttempts (state p)) |};
       pollTimer := None;
       log := log p ++ [Waited ms; Fetched fileId] |}.
Proof.
  unfold poll_timer_fires. rewrite commit_changed.
  - unfold record. cbn [state pollTimer log].
    by rewrite polling_effect_prefix, <- app_assoc.
  - unfold polling_deps. cbn. intros [= _ Hn]. lia.
Qed.

Lemma poll_round_unavailable k p o :
  polling_page k p -> (k < 10)%nat -> unavailable o = true ->
  exists p',
    poll_round now fileId o p = Some p'
    /\ polling_page (S k) p'
    /\ loading (state p') = false
    /\ log p' = log p ++ [Waited 5000; Fetched fileId].
Proof.
  intros (Ht & He & Hk & Htimer) Hlt Hu.
  apply Nat.ltb_lt in Hlt as Hltb. rewrite Hltb in Htimer.
  unfold poll_round. rewrite Htimer, poll_timer_fires_spec.
  eexists. split; [reflexivity|].
  cbn [state].
  set (st1 := fetch_prefix _).
  destruct (fetch_settle_unavailable o st1 Hu) as (msg & Hm & Herr & Htr & Hpa & Hl).
  rewrite commit_changed; cycle 1.
  { unfold polling_deps. cbn [state]. rewrite Herr. subst st1. cbn. intros [= ? _]. }
  unfold polling_page. cbn [state pollTimer log].
  unfold polling_effect. rewrite Herr, Htr, Hpa. subst st1.
  cbn [fetch_prefix analysisTriggered pollingAttempts truthy_opt].
  rewrite Ht, Hm, Hk. rewrite Ht, Hk in Hl. cbn [andb]. done.
Qed.

Lemma poll_round_exhausted k p o :
  polling_page k p -> (10 <= k)%nat -> poll_round now fileId o p = None.
Proof.
  intros (_ & _ & _ & Htimer) Hk. apply Nat.ltb_ge in Hk. rewrite Hk in Htimer.
  unfold poll_round. by rewrite Htimer.
Qed.

Lemma polling_rounds outs : forall k p,
  polling_page k p -> (k <= 10)%nat ->
  Forall (fun o => unavailable o = true) outs ->
  let n := Nat.min (length outs) (10 - k) in
  polling_page (k + n) (polling now fileId outs p)
  /\ log (polling now fileId outs p)
     = log p ++ List.concat (replicate n [Waited 5000; Fetched fileId]).
Proof.
  induction outs as [|o outs IH]; intros k p Hp Hk Hall n; subst n.
  - simpl. rewrite Nat.add_0_r, app_nil_r. done.
  - inversion Hall as [|? ? Ho Hall']; subst.
    destruct (decide (k = 10%nat)) as [->|Hne].
    + cbn [polling]. rewrite (poll_round_exhausted 10%nat p o) by (done || lia).
      rewrite Nat.sub_diag, Nat.min_0_r, Nat.add_0_r. simpl. by rewrite app_nil_r.
    + destruct (poll_round_unavailable k p o) as (p' & Hr & Hp' & _ & Hlog);
        [done | lia | done |].
      cbn [polling]. rewrite Hr.
      destruct (IH (S k) p' Hp' ltac:(lia) Hall') as [Hpage Hlog'].
      replace (Nat.min (length (o :: outs)) (10 - k))
        with (S (Nat.min (length outs) (10 - S k)))
        by (change (length (o :: outs)) with (S (length outs)); lia).
      rewrite Nat.add_succ_r. split; [exact Hpage|].
      rewrite Hlog', Hlog, <- app_assoc. reflexivity.
Qed.

Lemma fetches_rounds l n :
  fetches (l ++ List.concat (replicate n [Waited 5000; Fetched fileId]))
  = (fetches l + n)%nat.
Proof.
  unfold fetches. rewrite List.filter_app, length_app. f_equal.
  induction n as [|n IH]; [reflexivity|]. simpl. by rewrite IH.
Qed.

Lemma waits_app l1 l2 : waits (l1 ++ l2) = waits l1 ++ waits l2.
Proof. unfold waits. apply List.flat_map_app. Qed.

Lemma waits_rounds n :
  waits (List.concat (replicate n [Waited 5000; Fetched fileId]))
  = replicate n 5000%nat.
Proof.
  unfold waits. induction n as [|n IH]; [reflexivity|]. simpl. by rewrite IH.
Qed.

Lemma polling_page_state k p :
  polling_page k p ->
  job_state p = if (k <? 10)%nat then Polling else TimedOut.
Proof.
  intros (Ht & He & Hk & _). unfold job_state. by rewrite Ht, He, Hk.
Qed.

Lemma polling_stopped outs p :
  pollTimer p = None -> polling now fileId outs p = p.
Proof.
  intros Hp. destruct outs as [|o outs]; [reflexivity|].
  cbn [polling]. unfold poll_round. by rewrite Hp.
Qed.

Lemma commit_prefix p :
  pollTimer p = None ->
  commit p (fetch_prefix (state p))
  = {| state := fetch_prefix (state p); pollTimer := None; log := log p |}.
Proof.
  intros Hp. unfold commit. destruct (decide _).
  - by rewrite Hp.
  - by rewrite polling_effect_prefix.
Qed.

Lemma triggerLambdaAnalysis_mount :
  triggerLambdaAnalysis fileId true mount
  = {| state := {| selectedFile := None; loading := true; error := None;
                   analysisTriggered := true; pollingAttempts := 0 |};
       pollTimer := None;
       log := [TriggerSent fileId] |}.
Proof.
  unfold triggerLambdaAnalysis. rewrite commit_changed; [reflexivity|].
  unfold polling_deps. cbn. intros [=].
Qed.

Lemma fetchAnalysisResults_unavailable p first :
  unavailable first = true ->
  analysisTriggered (state p) = true ->
  pollingAttempts (state p) = 0%nat ->
  pollTimer p = None ->
  polling_page 0 (fetchAnalysisResults now fileId first p)
  /\ log (fetchAnalysisResults now fileId first p) = log p ++ [Fetched fileId].
Proof.
  intros Hu Ht Hk Hp. unfold fetchAnalysisResults.
  rewrite commit_prefix by done. unfold record. cbn [state pollTimer log].
  set (st1 := fetch_prefix _).
  destruct (fetch_settle_unavailable first st1 Hu) as (msg & Hm & Herr & Htr & Hpa & Hl).
  rewrite commit_changed; cycle 1.
  { unfold polling_deps. cbn [state]. rewrite Herr. subst st1. cbn. intros [= ? _]. }
  unfold polling_page. cbn [state pollTimer log].
  unfold polling_effect. rewrite Herr, Htr, Hpa. subst st1.
  cbn [fetch_prefix analysisTriggered pollingAttempts truthy_opt].
  by rewrite Ht, Hm, Hk.
Qed.

Lemma initAnalysis_enters_polling sp first :
  param_fileId sp = Some fileId -> truthy fileId = true ->
  truthy_opt (param_s3Key sp) = true ->
  truthy_opt (param_s3Bucket sp) = true ->
  truthy_opt (param_fileName sp) = true ->
  unavailable first = true ->
  polling_page 0 (initAnalysis now sp true first mount)
  /\ log (initAnalysis now sp true first mount)
     = [TriggerSent fileId; Waited 5000; Fetched fileId].
Proof.
  intros Hf Ht Hk Hb Hn Hu. unfold initAnalysis.
  rewrite Hf, Ht, Hk, Hb, Hn. cbn [andb].
  rewrite triggerLambdaAnalysis_mount. unfold record. cbn [state pollTimer log app].
  by apply fetchAnalysisResults_unavailable.
Qed.

(** A round whose request delivers the result completes the job: no
    timeout is armed any more. *)
Lemma poll_round_available k p d message :
  polling_page k p -> (k < 10)%nat ->
  exists p',
    poll_round now fileId (Resolved true (Some d) message) p = Some p'
    /\ job_state p' = Completed
    /\ pollTimer p' = None
    /\ pollingAttempts (state p') = S k.
Proof.
  intros (Ht & He & Hk & Htimer) Hlt.
  apply Nat.ltb_lt in Hlt as Hltb. rewrite Hltb in Htimer.
  unfold poll_round. rewrite Htimer, poll_timer_fires_spec.
  eexists. split; [reflexivity|].
  unfold commit. cbn [state fetch_settle fetch_prefix error pollTimer].
  destruct (decide _) as [_|Hne]; cbn [state pollTimer log]; unfold job_state;
    cbn [state analysisTriggered error loading selectedFile analysisResult
         pollingAttempts truthy_opt];
    rewrite ?Ht, ?Hk; cbn [negb]; done.
Qed.

Lemma log_commit p st' : log (commit p st') = log p.
Proof. unfold commit. by destruct (decide _). Qed.

(** Every visit with the four search parameters sends a trigger of its
    own and counts its polling attempts from zero. *)
Lemma initAnalysis_triggers sp ok first :
  param_fileId sp = Some fileId -> truthy fileId = true ->
  truthy_opt (param_s3Key sp) = true ->
  truthy_opt (param_s3Bucket sp) = true ->
  truthy_opt (param_fileName sp) = true ->
  exists rest,
    log (initAnalysis now sp ok first mount) = TriggerSent fileId :: rest
    /\ pollingAttempts (state mount) = 0%nat.
Proof.
  intros Hf Ht Hk Hb Hn. unfold initAnalysis, fetchAnalysisResults.
  rewrite Hf, Ht, Hk, Hb, Hn. cbn [andb].
  rewrite log_commit. unfold record at 1. cbn [log]. rewrite log_commit.
  unfold record. cbn [log].
  assert (log (triggerLambdaAnalysis fileId ok mount) = [TriggerSent fileId]) as ->.
  { unfold triggerLambdaAnalysis. destruct ok; [rewrite log_commit|]; reflexivity. }
  eexists. split; reflexivity.
Qed.

(** C6, as the code has it.  A visit whose trigger was acknowledged and
    whose result never becomes available reads the results at most eleven
    times: once in [initAnalysis], 5000 ms after the trigger, and then in
    at most ten polling rounds, each one 5000 ms after the failed read
    before it.  While polling attempts remain the timeout is armed and the
    job is being polled; after the tenth failed polling read, which is the
    eleventh read, no timeout is armed, the job reads as timed out, and
    nothing more happens however many answers remain: polling has
    stopped. *)
Theorem polling_stops_after_eleven_reads (sp : SearchParams)
    (first : FetchOutcome) (outs : list FetchOutcome) :
  param_fileId sp = Some fileId -> truthy fileId = true ->
  truthy_opt (param_s3Key sp) = true ->
  truthy_opt (param_s3Bucket sp) = true ->
  truthy_opt (param_fileName sp) = true ->
  unavailable first = true ->
  Forall (fun o => unavailable o = true) outs ->
  let p0 := initAnalysis now sp true first mount in
  let p := polling now fileId outs p0 in
  let n := Nat.min (length outs) 10 in
  job_state p0 = Polling
  /\ log p = TriggerSent fileId
             :: List.concat (replicate (S n) [Waited 5000; Fetched fileId])
  /\ fetches (log p) = S n
  /\ (fetches (log p) <= 11)%nat
  /\ waits (log p) = replicate (S n) 5000%nat
  /\ pollingAttempts (state p) = n
  /\ pollTimer p = (if (n <? 10)%nat then Some 5000%nat else None)
  /\ job_state p = (if (n <? 10)%nat then Polling else TimedOut)
  /\ ((10 <= length outs)%nat ->
      fetches (log p) = 11%nat /\ job_state p = TimedOut /\ pollTimer p = None
      /\ forall more, polling now fileId more p = p).
Proof.
  intros Hf Ht Hk Hb Hn Hu Hall p0 p n.
  destruct (initAnalysis_enters_polling sp first Hf Ht Hk Hb Hn Hu) as [Hp0 Hl0].
  fold p0 in Hp0, Hl0.
  destruct (polling_rounds outs 0%nat p0 Hp0 ltac:(lia) Hall) as [Hpage Hlog].
  rewrite Nat.sub_0_r, Nat.add_0_l in *. fold p n in Hpage, Hlog.
  pose proof Hpage as (_ & _ & Hk' & Htimer).
  assert (fetches (log p) = S n) as Hfe.
  { rewrite Hlog, fetches_rounds, Hl0. reflexivity. }
  assert (n <= 10)%nat as Hle by (subst n; lia).
  split; [by rewrite (polling_page_state _ _ Hp0)|].
  split; [by rewrite Hlog, Hl0|]. split; [exact Hfe|]. split; [lia|].
  split; [by rewrite Hlog, waits_app, waits_rounds, Hl0|].
  split; [exact Hk'|]. split; [exact Htimer|].
  split; [by apply polling_page_state|].
  intros Hlen. assert (n = 10%nat) as Hn10 by (subst n; lia).
  rewrite Hn10 in Htimer, Hfe. cbn in Htimer.
  split; [exact Hfe|].
  split; [by rewrite (polling_page_state _ _ Hpage), Hn10|].
  split; [exact Htimer|]. intros more. by apply polling_stopped.
Qed.

End Polling.

(** The sample visit, left alone through twelve 404 answers: eleven reads,
    then the job has timed out. *)
Lemma polling_stops_after_eleven_reads_witness :
  let now := js "2024-01-15T10:45:05Z" in
  let p := polling now (js "f1") (replicate 12 not_found)
             (initAnalysis now sample_params true not_found mount) in
  unavailable not_found = true
  /\ Forall (fun o => unavailable o = true) (replicate 12 not_found)
  /\ fetches (log p) = 11%nat
  /\ job_state p = TimedOut
  /\ pollTimer p = None.
Proof.
  assert (Forall (fun o => unavailable o = true) (replicate 12 not_found)) as Ho.
  { apply Forall_replicate. reflexivity. }
  split; [reflexivity|]. split; [exact Ho|].
  destruct (polling_stops_after_eleven_reads (js "2024-01-15T10:45:05Z") (js "f1")
              sample_params not_found (replicate 12 not_found)
              eq_refl eq_refl eq_refl eq_refl eq_refl eq_refl Ho)
    as (_ & _ & _ & _ & _ & _ & _ & _ & Hstop).
  destruct Hstop as (Hf & Hj & Ht & _); [rewrite length_replicate; lia|].
  split; [exact Hf|]. split; [exact Hj|exact Ht].
Defined.

(** C6, as the design states it, fails.  On the sample visit the job is
    being polled from its first read on; left alone through 404 answers,
    its tenth read fails and the timeout is armed once more, so the page
    reads an eleventh time before it stops. *)
Lemma eleventh_read_counterexample :
  let now := js "2024-01-15T10:46:00Z" in
  let first_read :=
    record (Fetched (js "f1"))
      (commit (record (Waited 5000) (triggerLambdaAnalysis (js "f1") true mount))
         (fetch_prefix
            (state (record (Waited 5000) (triggerLambdaAnalysis (js "f1") true mount))))) in
  let p10 := polling now (js "f1") (replicate 9 not_found) sample_page in
  let p := polling now (js "f1") (replicate 12 not_found) sample_page in
  job_state first_read = Polling
  /\ fetches (log first_read) = 1%nat
  /\ fetches (log p10) = 10%nat
  /\ truthy_opt (error (state p10)) = true
  /\ pollTimer p10 = Some 5000%nat
  /\ job_state p10 = Polling
  /\ fetches (log p) = 11%nat
  /\ job_state p = TimedOut.
Proof. vm_compute. repeat split. Qed.

(** ** Consensus *)

Section View.

(** All shapes of the three inputs of the comparison view. *)
Ltac view_cases ml bert analysis :=
  unfold three_way_consensus, reporting_votes;
  destruct ml as [[[] ? ?]|], bert as [[[] ? ?]|];
  destruct (stataMalicious analysis);
  vm_compute.

Lemma view_counts ml bert analysis :
  let r := three_way_consensus ml bert analysis in
  maliciousCount r = count_true (reporting_votes ml bert analysis)
  /\ totalAnalyses r = length (reporting_votes ml bert analysis)
  /\ (1 <= totalAnalyses r <= 3)%nat
  /\ (maliciousCount r <= totalAnalyses r)%nat.
Proof. view_cases ml bert analysis; repeat split; lia. Qed.

Lemma view_majority ml bert analysis :
  let r := three_way_consensus ml bert analysis in
  consensus r = true <-> (totalAnalyses r <= 2 * maliciousCount r)%nat.
Proof. view_cases ml bert analysis; split; intros; (done || lia). Qed.

Lemma readme_majority stata gnn bert :
  exists c,
    consensus_verdict stata gnn bert = Some c
    /\ agreement_level c
       = count_true [bool_decide (stata_verdict stata = js "MALICIOUS");
                     model_is_malicious gnn; model_is_malicious bert]
    /\ (final_verdict c = js "MALICIOUS" <-> (3 <= 2 * agreement_level c)%nat)
    /\ (final_verdict c = js "BENIGN" <-> (2 * agreement_level c < 3)%nat).
Proof.
  unfold consensus_verdict. destruct gnn as [[]], bert as [[]];
    destruct (bool_decide _); vm_compute; eexists; (split; [reflexivity|]);
    vm_compute; repeat split; intros; (done || lia).
Qed.

Lemma view_headline ml bert analysis :
  let r := three_way_consensus ml bert analysis in
  headline_malicious (headline r) = consensus r.
Proof. view_cases ml bert analysis; reflexivity. Qed.

(** Every list of one to three votes is the list of reporting votes of
    some input of the view. *)
Lemma reporting_votes_any (votes : list bool) :
  (1 <= length votes <= 3)%nat ->
  exists ml bert analysis, reporting_votes ml bert analysis = votes.
Proof.
  intros Hlen.
  assert (forall s : bool, exists a, stataMalicious a = s) as Hs.
  { intros [].
    - exists (stata_with (Some (js "MALICIOUS"))). reflexivity.
    - exists stata_silent. reflexivity. }
  set (m := fun b : bool => {| is_malicious := b; risk_score := 0; ml_confidence := 0 |}).
  destruct votes as [|s [|g [|b [|? ?]]]]; simpl in Hlen; try lia.
  - destruct (Hs s) as [a Ha]. exists None, None, a.
    unfold reporting_votes. by rewrite Ha.
  - destruct (Hs g) as [a Ha]. exists (Some (m s)), None, a.
    unfold reporting_votes. by rewrite Ha.
  - destruct (Hs b) as [a Ha]. exists (Some (m s)), (Some (m g)), a.
    unfold reporting_votes. by rewrite Ha.
Qed.

(** C1. Majority rule.  The comparison view counts between one and three
    reporting votes and declares the file malicious exactly when the number
    of malicious votes, doubled, reaches the number of reporting votes; its
    headline announces the same verdict.  The vote of the README, always
    over three engines, follows the same rule.  A one-against-one tie and a
    single malicious reporter both give a malicious verdict. *)
Theorem majority_rule (mlAnalysis bertAnalysis : option MLAnalysis)
    (analysis : StaticAnalysis) (stata : StataResult) (gnn bert : ModelResult) :
  let r := three_way_consensus mlAnalysis bertAnalysis analysis in
  let votes := reporting_votes mlAnalysis bertAnalysis analysis in
  (1 <= length votes <= 3)%nat
  /\ maliciousCount r = count_true votes
  /\ totalAnalyses r = length votes
  /\ (consensus r = true <-> (totalAnalyses r <= maliciousCount r * 2)%nat)
  /\ headline_malicious (headline r) = consensus r
  /\ (exists c,
        consensus_verdict stata gnn bert = Some c
        /\ agreement_level c
           = count_true [bool_decide (stata_verdict stata = js "MALICIOUS");
                         model_is_malicious gnn; model_is_malicious bert]
        /\ (final_verdict c = js "MALICIOUS" <-> (3 <= agreement_level c * 2)%nat)
        /\ (final_verdict c = js "BENIGN" <-> (agreement_level c * 2 < 3)%nat))
  /\ consensus (three_way_consensus (Some benign_model) None
                  (stata_with (Some (js "Malicious")))) = true
  /\ consensus (three_way_consensus None None
                  (stata_with (Some (js "MALICIOUS")))) = true.
Proof.
  intros r votes.
  destruct (view_counts mlAnalysis bertAnalysis analysis) as (Hm & Ht & Hb & _).
  fold r votes in Hm, Ht, Hb.
  split; [by rewrite <- Ht|]. split; [exact Hm|]. split; [exact Ht|].
  split; [rewrite Nat.mul_comm; apply view_majority|].
  split; [apply view_headline|].
  split.
  - destruct (readme_majority stata gnn bert) as (c & Hc & Ha & Hmal & Hben).
    exists c. rewrite Nat.mul_comm. done.
  - split; vm_compute; reflexivity.
Qed.

(** C2, as the design states it, fails: before any engine has answered
    the page holds no result, and the comparison renders nothing at all:
    no benign verdict, no label, no score. *)
Lemma zero_reporters_counterexample :
  engines_reported None None None = 0%nat
  /\ comparison_shown None None None = false
  /\ three_way_comparison None None None = None
  /\ ~ (exists r, three_way_comparison None None None = Some r
                  /\ consensus r = false
                  /\ headline_label (headline r) = Some NoData).
Proof.
  repeat split; try reflexivity. intros (r & Hr & _). discriminate Hr.
Qed.

Lemma comparison_hidden ml bert analysis :
  three_way_comparison ml bert analysis = None
  <-> (ml = None /\ bert = None) \/ analysis = None.
Proof.
  unfold three_way_comparison, comparison_shown.
  destruct ml, bert, analysis; cbn; split; intros H; try done;
    try (by left); try (by right); destruct H as [[? ?]|?]; done.
Qed.

(** C2, as the code has it.  The comparison, its consensus included, is
    rendered only when the rule-based result and at least one model result
    are there; with no engine reporting nothing is rendered, so there is no
    verdict, no label and no score, and nothing is called malicious.  A
    rendered consensus counts the two or three engines that reported; an
    engine without a result adds no malicious vote; without a malicious
    vote the consensus is benign under the headline "All Models Agree -
    BENIGN"; every headline names a unanimous or a majority outcome.  The
    vote of the README, over its three results, names an agreement level
    too, never missing data. *)
Theorem no_reporter_no_comparison (mlAnalysis bertAnalysis : option MLAnalysis)
    (analysis : option StaticAnalysis) (stata : StataResult) (gnn bert : ModelResult) :
  let shown := three_way_comparison mlAnalysis bertAnalysis analysis in
  three_way_comparison None None None = None
  /\ (shown = None <-> (mlAnalysis = None /\ bertAnalysis = None) \/ analysis = None)
  /\ (engines_reported mlAnalysis bertAnalysis analysis = 0%nat -> shown = None)
  /\ (forall r, shown = Some r ->
        (2 <= totalAnalyses r <= 3)%nat
        /\ totalAnalyses r = engines_reported mlAnalysis bertAnalysis analysis
        /\ (exists a, analysis = Some a
                      /\ maliciousCount r
                         = count_true (reporting_votes mlAnalysis bertAnalysis a))
        /\ (maliciousCount r = 0%nat ->
            consensus r = false /\ headline r = js "All Models Agree - BENIGN")
        /\ (headline_label (headline r) = Some Unanimous
            \/ headline_label (headline r) = Some Majority))
  /\ (headline <$> three_way_comparison None (Some benign_model) (Some stata_silent))
     = Some (js "All Models Agree - BENIGN")
  /\ (exists c, consensus_verdict stata gnn bert = Some c
                /\ confidence_label (confidence c) <> Some NoData
                /\ confidence_label (confidence c) <> None).
Proof.
  intros shown. split; [reflexivity|]. split; [apply comparison_hidden|].
  split; [|split; [|split]].
  - intros H0. apply comparison_hidden.
    destruct mlAnalysis, bertAnalysis, analysis; try discriminate H0. by left.
  - intros r Hr. subst shown. unfold three_way_comparison, comparison_shown in Hr.
    destruct analysis as [a|]; [|by rewrite andb_false_r in Hr].
    destruct (view_counts mlAnalysis bertAnalysis a) as (Hm & _).
    destruct mlAnalysis as [ml|], bertAnalysis as [be|]; cbn in Hr; try discriminate Hr;
      injection Hr as <-;
      (split; [|split; [|split; [exists a; split; [reflexivity|exact Hm]|]]]).
    all: try (unfold three_way_consensus;
              try destruct ml as [[] ? ?]; try destruct be as [[] ? ?];
              destruct (stataMalicious a); vm_compute; intuition (lia || discriminate || auto)).
  - reflexivity.
  - unfold consensus_verdict. destruct gnn as [[]], bert as [[]];
      destruct (bool_decide _); vm_compute; eexists; (split; [reflexivity|]);
      split; congruence.
Qed.

(** C3, as the design states it, fails: with one malicious vote out of
    three the design's label is minority, while the view's headline reads
    "Majority Consensus - BENIGN". *)
Lemma minority_counterexample :
  let r := three_way_consensus (Some malicious_model) (Some benign_model) stata_silent in
  maliciousCount r = 1%nat
  /\ totalAnalyses r = 3%nat
  /\ design_confidenceLabel (maliciousCount r) (totalAnalyses r) = Minority
  /\ headline r = js "Majority Consensus - BENIGN"
  /\ headline_label (headline r) = Some Majority
  /\ headline_label (headline r)
     <> Some (design_confidenceLabel (maliciousCount r) (totalAnalyses r)).
Proof. vm_compute. repeat split; congruence. Qed.

(** C3, as the code has it.  The view's headline names the design's label
    whenever that label is unanimous or majority (a tie included); when
    the design says minority, that is when fewer than half but not none
    vote malicious, the view reads "Majority Consensus - BENIGN".  The
    [confidence_map] of the README, over its three votes, names the
    design's label in every case, minority included. *)
Theorem confidence_labels (mlAnalysis bertAnalysis : option MLAnalysis)
    (analysis : StaticAnalysis) (stata : StataResult) (gnn bert : ModelResult) :
  let r := three_way_consensus mlAnalysis bertAnalysis analysis in
  let d := design_confidenceLabel (maliciousCount r) (totalAnalyses r) in
  headline_label (headline r)
  = Some (match d with Minority => Majority | _ => d end)
  /\ (d = Minority <-> headline r = js "Majority Consensus - BENIGN")
  /\ (d = Majority <-> headline r = js "Majority Consensus - MALICIOUS")
  /\ exists c,
       consensus_verdict stata gnn bert = Some c
       /\ confidence_label (confidence c)
          = Some (design_confidenceLabel (agreement_level c) 3).
Proof.
  split; [|split; [|split]].
  - view_cases mlAnalysis bertAnalysis analysis; reflexivity.
  - view_cases mlAnalysis bertAnalysis analysis; split; intros; (done || discriminate).
  - view_cases mlAnalysis bertAnalysis analysis; split; intros; (done || discriminate).
  - unfold consensus_verdict. destruct gnn as [[]], bert as [[]];
      destruct (bool_decide _); vm_compute; eexists; (split; reflexivity).
Qed.

End View.

(** ** Scores *)

Section Scores.

Lemma reporting_absent perEngine before after absent :
  perEngine absent = None ->
  reporting perEngine (before ++ absent :: after)
  = reporting perEngine (before ++ after).
Proof.
  intros Ha. unfold reporting. rewrite !omap_app. simpl. by rewrite Ha.
Qed.

Lemma combinedRiskScore_mean v verdicts :
  (combinedRiskScore (v :: verdicts) * inject_Z (Z.of_nat (length (v :: verdicts)))
   == sum_scores (v :: verdicts))%Q.
Proof.
  unfold combinedRiskScore. set (n := inject_Z _).
  assert (~ n == 0)%Q as Hn.
  { subst n. cbn [length]. unfold Qeq. simpl. lia. }
  field. exact Hn.
Qed.

(** C4. The combined risk score is the arithmetic mean of the reporting
    verdicts' scores: an engine without a verdict, wherever it stands among
    the engines asked, leaves the score unchanged; the score times the
    number of reporting verdicts is their sum; and the scores 80, 70 and 10
    combine to 160/3, printed 53.33. *)
Theorem combined_score_excludes_absent (perEngine : EngineKind -> option Verdict)
    (before after : list EngineKind) (absent : EngineKind)
    (v : Verdict) (verdicts : list Verdict) :
  perEngine absent = None ->
  combinedRiskScore (reporting perEngine (before ++ absent :: after))
  = combinedRiskScore (reporting perEngine (before ++ after))
  /\ (combinedRiskScore (v :: verdicts) * inject_Z (Z.of_nat (length (v :: verdicts)))
      == sum_scores (v :: verdicts))%Q
  /\ combinedRiskScore [] = 0%Q
  /\ List.map riskScore scenario_verdicts = [80; 70; 10]%Q
  /\ (combinedRiskScore scenario_verdicts == 160 # 3)%Q
  /\ (two_decimals (combinedRiskScore scenario_verdicts) == 53.33)%Q.
Proof.
  intros Ha. split; [by rewrite reporting_absent|].
  split; [apply combinedRiskScore_mean|].
  repeat split; vm_compute; reflexivity.
Qed.

(** Two engines reporting, the third absent. *)
Lemma combined_score_excludes_absent_witness :
  two_reporting Semantic = None
  /\ combinedRiskScore (reporting two_reporting [RuleBased; Structural; Semantic])
     = combinedRiskScore (reporting two_reporting [RuleBased; Structural]).
Proof.
  split; [reflexivity|].
  apply (combined_score_excludes_absent two_reporting [RuleBased; Structural] []
           Semantic (verdict_of 80 true RuleBased) []).
  reflexivity.
Defined.

Lemma risk_category_spec score :
  (risk_category score = Malicious <-> (60 <= score)%Q)
  /\ (risk_category score = Suspicious <-> (35 <= score /\ score < 60)%Q)
  /\ (risk_category score = Safe <-> (score < 35)%Q).
Proof.
  unfold risk_category.
  destruct (Qle_bool 60 score) eqn:E60; [|destruct (Qle_bool 35 score) eqn:E35].
  - apply Qle_bool_iff in E60. repeat split; intros; try done; lra.
  - apply Qle_bool_iff in E35.
    assert (~ 60 <= score)%Q by (rewrite <- Qle_bool_iff; congruence).
    repeat split; intros; try done; lra.
  - assert (~ 60 <= score)%Q by (rewrite <- Qle_bool_iff; congruence).
    assert (~ 35 <= score)%Q by (rewrite <- Qle_bool_iff; congruence).
    repeat split; intros; try done; lra.
Qed.

Lemma gauge_matches_category score :
  gauge_colour score
  = match risk_category score with
    | Malicious => Red | Suspicious => Yellow | Safe => Green
    end.
Proof.
  unfold gauge_colour, risk_category.
  by destruct (Qle_bool 60 score), (Qle_bool 35 score).
Qed.

(** C5. The rule-based score is 0.6 times the threat-pattern sub-score
    plus 0.4 times the behavioural sub-score; the category is malicious
    from 60 up, suspicious from 35 up to but not including 60, and safe
    below 35.  Sub-scores 90 and 20 combine to 62, in exact and in binary64
    arithmetic alike: malicious. *)
Theorem rule_based_category (threat_score behavioral_score : Q) :
  let score := weighted_score threat_score behavioral_score in
  (score == 0.6 * threat_score + 0.4 * behavioral_score)%Q
  /\ (risk_category score = Malicious <-> (60 <= score)%Q)
  /\ (risk_category score = Suspicious <-> (35 <= score /\ score < 60)%Q)
  /\ (risk_category score = Safe <-> (score < 35)%Q)
  /\ (weighted_score 90 20 == 62)%Q
  /\ risk_category (weighted_score 90 20) = Malicious
  /\ (weighted_score_binary64 90 20 =? 62)%float = true.
Proof.
  intros score. split; [subst score; unfold weighted_score; lra|].
  destruct (risk_category_spec score) as (H1 & H2 & H3).
  do 3 (split; [done|]). repeat split; vm_compute; reflexivity.
Qed.

End Scores.

(** * Further properties *)

Import Validation FileSelection Files AnalysisResults Api ML PageHelpers Samples.

Section Names.

Lemma split_no_sep sep s : sep ∉ s -> split sep s = [s].
Proof.
  induction s as [|c s IH]; intros Hn; simpl; [done|].
  apply not_elem_of_cons in Hn as [Hc Hs].
  destruct (N.eqb_spec c sep); [congruence|]. by rewrite IH.
Qed.

Lemma join_split sep s : join [sep] (split sep s) = s.
Proof.
  induction s as [|c s IH]; simpl; [done|].
  pose proof (split_nonempty sep s) as Hne.
  destruct (N.eqb_spec c sep) as [->|Hc].
  - destruct (split sep s) as [|p ps]; [done|]. simpl in *. by rewrite IH.
  - destruct (split sep s) as [|p ps]; [done|].
    destruct ps; simpl in *; by rewrite <- IH.
Qed.

Lemma join_snoc sep init x :
  init ≠ [] -> join sep (init ++ [x]) = join sep init ++ sep ++ x.
Proof.
  induction init as [|p init IH]; intros Hne; [done|].
  destruct init as [|q init]; [done|].
  change (join sep ((p :: q :: init) ++ [x]))
    with (p ++ sep ++ join sep ((q :: init) ++ [x])).
  rewrite IH by done.
  change (join sep (p :: q :: init)) with (p ++ sep ++ join sep (q :: init)).
  by rewrite <- !app_assoc.
Qed.

Lemma split_segments sep s :
  sep ∈ s <-> (2 <= length (split sep s))%nat.
Proof.
  induction s as [|c s IH]; simpl.
  - split; [by intros ?%elem_of_nil | lia].
  - pose proof (split_nonempty sep s) as Hne.
    destruct (N.eqb_spec c sep) as [->|Hc].
    + split; [|intros _; by left]. intros _.
      destruct (split sep s); [done|]. simpl. lia.
    + destruct (split sep s) as [|p ps]; [done|]. simpl in *.
      rewrite elem_of_cons, IH. split; [intros [?|?]; [congruence|done]|auto].
Qed.

Lemma split_units sep s seg : seg ∈ split sep s -> forall c, c ∈ seg -> c ∈ s.
Proof.
  revert seg. induction s as [|c s IH]; simpl; intros seg Hseg x Hx.
  - apply list_elem_of_singleton in Hseg as ->. done.
  - pose proof (split_nonempty sep s) as Hne.
    destruct (N.eqb_spec c sep) as [->|Hc].
    + apply elem_of_cons in Hseg as [->|Hseg]; [by apply elem_of_nil in Hx|].
      right. eauto.
    + destruct (split sep s) as [|p ps]; [done|].
      apply elem_of_cons in Hseg as [->|Hseg].
      * apply elem_of_cons in Hx as [->|Hx]; [by left|].
        right. eapply IH; [by left|done].
      * right. eapply IH; [by right|done].
Qed.

Lemma split_last_no_sep sep s x : last (split sep s) = Some x -> sep ∉ x.
Proof.
  revert x. induction s as [|c s IH]; simpl; intros x.
  - intros [= <-]. apply not_elem_of_nil.
  - pose proof (split_nonempty sep s) as Hne.
    destruct (N.eqb_spec c sep) as [->|Hc].
    + destruct (split sep s) as [|p ps] eqn:E; [done|].
      rewrite last_cons_cons. apply IH.
    + destruct (split sep s) as [|p ps] eqn:E; [done|].
      destruct ps as [|q ps].
      * intros [= <-]. apply not_elem_of_cons. split; [done|]. by apply IH.
      * rewrite last_cons_cons. intros Hl. apply IH. by rewrite last_cons_cons.
Qed.

Lemma split_last_app sep a b :
  last (split sep (a ++ sep :: b)) = last (split sep b).
Proof.
  induction a as [|c a IH]; simpl.
  - rewrite N.eqb_refl. pose proof (split_nonempty sep b).
    destruct (split sep b); [done|]. by rewrite last_cons_cons.
  - pose proof (split_nonempty sep (a ++ sep :: b)) as Hne.
    assert (2 <= length (split sep (a ++ sep :: b)))%nat as Hlen.
    { apply split_segments. set_solver. }
    destruct (N.eqb_spec c sep) as [->|Hc].
    + destruct (split sep (a ++ sep :: b)) as [|p ps]; [done|].
      by rewrite last_cons_cons.
    + destruct (split sep (a ++ sep :: b)) as [|p [|q ps]]; simpl in Hlen; try lia.
      by rewrite !last_cons_cons in *.
Qed.

Lemma removelast_last (l : list jsstring) x :
  last l = Some x -> l = List.removelast l ++ [x].
Proof.
  induction l as [|y l IH]; [done|]. destruct l as [|z l].
  - by intros [= ->].
  - rewrite last_cons_cons. intros Hl.
    change (List.removelast (y :: z :: l)) with (y :: List.removelast (z :: l)).
    simpl. f_equal. by apply IH.
Qed.

Lemma generateUniqueFilename_shape ts r name :
  generateUniqueFilename ts r name
  = ts ++ [hyphen] ++ r ++ [hyphen]
    ++ (if bool_decide (dot ∈ name) then name else dot :: name).
Proof.
  unfold generateUniqueFilename, pop, slice_init.
  pose proof (split_nonempty dot name) as Hne.
  destruct (last (split dot name)) as [ext|] eqn:Hlast;
    [|by apply last_None in Hlast].
  pose proof (removelast_last _ _ Hlast) as Hsplit.
  cbn [default from_option id]. do 4 f_equal.
  case_bool_decide as Hdot.
  - apply split_segments in Hdot.
    assert (List.removelast (split dot name) ≠ []) as Hinit.
    { intros E. rewrite E in Hsplit. rewrite Hsplit in Hdot. simpl in Hdot. lia. }
    rewrite <- join_snoc by done. rewrite <- Hsplit. apply join_split.
  - assert (split dot name = [name]) as E by by apply split_no_sep.
    rewrite E in *. injection Hlast as <-. reflexivity.
Qed.

Lemma generateUniqueFilename_extension ts r name :
  pop (split dot (generateUniqueFilename ts r name)) = pop (split dot name).
Proof.
  unfold generateUniqueFilename, pop, slice_init.
  pose proof (split_nonempty dot name) as Hne.
  destruct (last (split dot name)) as [ext|] eqn:Hlast;
    [|by apply last_None in Hlast].
  cbn [default from_option id].
  rewrite !app_assoc. rewrite <- (app_assoc _ [dot] ext). simpl ([dot] ++ ext).
  rewrite split_last_app.
  rewrite split_no_sep by (by eapply split_last_no_sep). done.
Qed.

(** X2. The unique file name is the timestamp, the random string and the
    original name joined by hyphens when the name has a dot; a name without
    a dot is put after a dot of its own (empty base name, the whole name as
    extension).  Either way the extension, as [split('.').pop()] and
    [getFileExtension] read it, is the one of the original name. *)
Theorem unique_filename_keeps_name (ts r name : jsstring) :
  generateUniqueFilename ts r name
  = ts ++ [hyphen] ++ r ++ [hyphen]
    ++ (if bool_decide (dot ∈ name) then name else dot :: name)
  /\ pop (split dot (generateUniqueFilename ts r name)) = pop (split dot name)
  /\ getFileExtension (generateUniqueFilename ts r name) = getFileExtension name.
Proof.
  split; [apply generateUniqueFilename_shape|].
  pose proof (generateUniqueFilename_extension ts r name) as H.
  split; [exact H|]. unfold getFileExtension. by rewrite H.
Qed.

End Names.

Section SanitizedNames.

Lemma replace_underscore_runs_length s :
  (length (replace_underscore_runs s) <= length s)%nat.
Proof.
  funelim (replace_underscore_runs s); [done|..].
  - clear Heqcall. cbn [length]. rewrite length_drop in H.
    assert (2 <= run_length (c :: rest))%nat by by apply Nat.leb_le.
    cbn [length] in H. lia.
  - cbn [length]. lia.
Qed.

Lemma clean_unit_no_slash c : clean_unit c = true -> c ≠ slash.
Proof. intros H ->. vm_compute in H. discriminate. Qed.

Lemma sanitizeFilename_no_slash filename : slash ∉ sanitizeFilename filename.
Proof.
  intros Hin. pose proof (sanitizeFilename_clean filename) as Hc.
  rewrite Forall_forall in Hc. by apply Hc, clean_unit_no_slash in Hin.
Qed.

(** X1. Sanitizing never lengthens a file name, turns only the empty name
    into the empty name, and leaves no slash in it. *)
Theorem sanitizeFilename_safe (filename : jsstring) :
  (length (sanitizeFilename filename) <= length filename)%nat
  /\ (sanitizeFilename filename = [] <-> filename = [])
  /\ slash ∉ sanitizeFilename filename.
Proof.
  split; [|split].
  - unfold sanitizeFilename, toLowerCase. rewrite length_map.
    etrans; [apply replace_underscore_runs_length|].
    by rewrite replace_outside_single, length_map.
  - split; [|by intros ->].
    unfold sanitizeFilename, toLowerCase. intros H%map_eq_nil.
    assert (head (replace_underscore_runs
                    (replace_outside filename_unit [underscore] filename)) = None) as Hh
      by by rewrite H.
    rewrite replace_underscore_runs_head, replace_outside_single in Hh.
    by destruct filename.
  - apply sanitizeFilename_no_slash.
Qed.

End SanitizedNames.

Section StoredNames.

Lemma s3Key_segments jobId filename :
  slash ∉ jobId -> slash ∉ filename ->
  split slash (s3Key jobId filename) = [js "uploads"; jobId; filename].
Proof.
  intros Hj Hf. rewrite key_segments by done. by rewrite split_no_sep.
Qed.

Lemma unique_filename_no_slash ts r name :
  slash ∉ ts -> slash ∉ r -> slash ∉ name ->
(slash ∉ generateUniqueFilename ts r name)
  /\ truthy (generateUniqueFilename ts r name) = true.
Proof.
  intros Hts Hr Hn. rewrite generateUniqueFilename_shape. split.
  - rewrite !not_elem_of_app. repeat split; try done;
      try (intros [=]%list_elem_of_singleton).
    case_bool_decide; [done|].
    apply not_elem_of_cons. split; [discriminate|done].
  - destruct ts; reflexivity.
Qed.

(** X3. With a job identifier, timestamp and random string free of slashes,
    the key of an accepted upload has exactly the three segments
    [uploads], job identifier, file name; the listing callback and the
    details route both report the stored file name, and its extension is
    that of the sanitized original name. *)
Theorem stored_filename_round_trip (b : bucket) (file : MulterFile) (env : UploadEnv)
    (etag : jsstring) (obj : S3Object) :
  uuid_shape (uuid env) = true ->
  slash ∉ timestamp env ->
  slash ∉ randomString env ->
  exists data,
    snd (post_file b (Some file) env (S3Ok etag))
    = (200%nat, UploadSuccess (js "File uploaded successfully") data)
    /\ split slash (data_s3Key data)
       = [js "uploads"; data_jobId data; data_filename data]
    /\ (forall head,
          entry_filename (file_entry (data_s3Key data) head) = data_filename data)
    /\ get_file_details (data_jobId data) (Listed [data_s3Key data]) (Some obj)
       = (200%nat,
          DetailsSuccess
            {| entry_id := data_jobId data;
               entry_filename := data_filename data;
               entry_originalName :=
                 or_else (Some (meta_originalName obj)) (data_filename data);
               entry_status := js "uploaded";
               entry_jobId := Some (data_jobId data);
               entry_fileType := or_else (Some (ContentType obj)) (js "unknown");
               entry_s3Key := data_s3Key data |})
    /\ getFileExtension (data_filename data)
       = getFileExtension (sanitizeFilename (originalname file)).
Proof.
  intros [_ Hj]%uuid_shape_units Hts Hr.
  destruct (unique_filename_no_slash (timestamp env) (randomString env)
              (sanitizeFilename (originalname file)) Hts Hr) as [Hf Ht].
  { apply sanitizeFilename_no_slash. }
  eexists. split; [reflexivity|].
  cbn [data_s3Key data_jobId data_filename].
  pose proof (s3Key_segments _ _ Hj Hf) as Hseg.
  split; [exact Hseg|]. split; [|split].
  - intros [o|]; unfold file_entry; rewrite Hseg; cbn [entry_filename lookup list_lookup or_else];
      by rewrite Ht.
  - unfold get_file_details. rewrite Hseg. cbn [lookup list_lookup or_else].
    by rewrite Ht.
  - unfold getFileExtension. by rewrite generateUniqueFilename_extension.
Qed.

End StoredNames.

Section Buckets.

Lemma s3Key_inj jobId1 filename1 jobId2 filename2 :
  slash ∉ jobId1 -> slash ∉ jobId2 ->
  s3Key jobId1 filename1 = s3Key jobId2 filename2 -> jobId1 = jobId2.
Proof.
  intros H1 H2 E. apply (f_equal (split slash)) in E.
  rewrite !key_segments in E by done. congruence.
Qed.

Lemma post_file_key b file env etag :
  fst (post_file b (Some file) env (S3Ok etag))
  = <[s3Key (uuid env)
        (generateUniqueFilename (timestamp env) (randomString env)
           (sanitizeFilename (originalname file))) :=
        {| Body := buffer file; ContentType := mimetype file;
           meta_originalName := originalname file; meta_jobId := uuid env;
           meta_uploadTimestamp := isoNow env; meta_fileSize := size file |}]> b.
Proof. reflexivity. Qed.

(** X4. An upload that fails (no file, or S3 throwing any error) is answered
    with a status of 400 or more and leaves the bucket as it was; an
    accepted one stores the file's bytes under one new key and touches no
    other key. *)
Theorem post_file_failure_keeps_bucket (b : bucket) (file : option MulterFile)
    (env : UploadEnv) (s3 : S3Outcome) :
  let r := post_file b file env s3 in
  match file, s3 with
  | Some f, S3Ok _ =>
      fst (snd r) = 200%nat
      /\ (exists key, fst r !! key = Some {| Body := buffer f; ContentType := mimetype f;
                        meta_originalName := originalname f; meta_jobId := uuid env;
                        meta_uploadTimestamp := isoNow env; meta_fileSize := size f |}
                      /\ forall k, k ≠ key -> fst r !! k = b !! k)
  | _, _ =>
      fst r = b /\ (400 <= fst (snd r))%nat
      /\ exists error message, snd (snd r) = UploadFailure error message
  end.
Proof.
  destruct file as [f|], s3 as [etag|name]; cbn zeta.
  - split; [reflexivity|]. eexists. rewrite post_file_key. split.
    + apply lookup_insert_eq.
    + intros k Hk. by rewrite lookup_insert_ne.
  - unfold post_file. repeat (destruct (decide _)); cbn; (split; [done|]);
      (split; [lia|]); eauto.
  - cbn. split; [done|]. split; [lia|]. eauto.
  - cbn. split; [done|]. split; [lia|]. eauto.
Qed.

(** X5. Two accepted uploads with different job identifiers are stored under
    different keys, whatever the file names: after the second upload both
    objects are there with their own bytes, and no other key has changed. *)
Theorem uploads_do_not_overwrite (b : bucket) (file1 file2 : MulterFile)
    (env1 env2 : UploadEnv) (etag1 etag2 : jsstring) :
  uuid_shape (uuid env1) = true ->
  uuid_shape (uuid env2) = true ->
  uuid env1 ≠ uuid env2 ->
  let b1 := fst (post_file b (Some file1) env1 (S3Ok etag1)) in
  let b2 := fst (post_file b1 (Some file2) env2 (S3Ok etag2)) in
  exists key1 key2 obj1 obj2,
    key1 ≠ key2
    /\ b1 !! key1 = Some obj1
    /\ b2 !! key1 = Some obj1 /\ Body obj1 = buffer file1
    /\ b2 !! key2 = Some obj2 /\ Body obj2 = buffer file2
    /\ forall k, k ≠ key1 -> k ≠ key2 -> b2 !! k = b !! k.
Proof.
  intros [_ H1]%uuid_shape_units [_ H2]%uuid_shape_units Hne b1 b2.
  subst b1 b2. rewrite !post_file_key.
  set (k1 := s3Key (uuid env1) _). set (k2 := s3Key (uuid env2) _).
  assert (k1 ≠ k2) as Hk by (intros E; by apply s3Key_inj in E).
  exists k1, k2. eexists. eexists. split; [done|].
  split; [apply lookup_insert_eq|].
  split; [by rewrite lookup_insert_ne, lookup_insert_eq|].
  split; [reflexivity|]. split; [apply lookup_insert_eq|].
  split; [reflexivity|].
  intros k Hk1 Hk2. by rewrite !lookup_insert_ne.
Qed.

(** Deleting keys one at a time. *)
Lemma apply_deletes_lookup (del : jsstring -> option jsstring) (keys : list jsstring) (b : bucket) (k : jsstring) :
  apply_deletes del keys b !! k
  = if bool_decide (k ∈ keys /\ del k = None) then None else b !! k.
Proof.
  induction keys as [|x keys IH]; cbn [apply_deletes foldr].
  - rewrite bool_decide_eq_false_2; [done|]. intros [H _]. by apply elem_of_nil in H.
  - fold (apply_deletes del keys b). destruct (del x) eqn:E.
    + rewrite IH. erewrite bool_decide_ext; [reflexivity|].
      rewrite elem_of_cons. split; [tauto|]. intros [[->|?] ?]; [congruence|tauto].
    + destruct (decide (k = x)) as [->|Hne].
      * rewrite lookup_delete_eq, bool_decide_eq_true_2; [done|].
        split; [by left|done].
      * rewrite lookup_delete_ne by done. rewrite IH.
        erewrite bool_decide_ext; [reflexivity|].
        rewrite elem_of_cons. split; [tauto|]. intros [[?|?] ?]; [done|tauto].
Qed.

Lemma first_rejection_None (del : jsstring -> option jsstring) (keys : list jsstring) :
  first_rejection del keys = None <-> forall k, k ∈ keys -> del k = None.
Proof.
  unfold first_rejection. induction keys as [|x keys IH]; simpl.
  - split; [intros _ k ?%elem_of_nil; done|done].
  - destruct (del x) eqn:E; simpl.
    + split; [done|]. intros H. specialize (H x ltac:(by left)). congruence.
    + rewrite IH. split.
      * intros H k [->|?]%elem_of_cons; auto.
      * intros H k ?. apply H. by right.
Qed.

(** X6. [DELETE /:fileId]: a success answer means that every listed key is
    gone and every other key is untouched, with [deletedCount] the number
    of listed keys (at least one).  A failure answer has status 400 or
    more; objects whose own delete succeeded may be gone all the same, and
    on 404 nothing has changed. *)
Theorem delete_file_removes_listed (b : bucket) (fileId : jsstring)
    (listing : ListOutcome) (del : jsstring -> option jsstring) :
  let r := delete_file b fileId listing del in
  match snd (snd r) with
  | DeleteSuccess data =>
      fst (snd r) = 200%nat
      /\ listing = Listed (deletedKeys data)
      /\ deletedCount data = length (deletedKeys data)
      /\ deletedKeys data ≠ []
      /\ (forall k, k ∈ deletedKeys data -> fst r !! k = None)
      /\ (forall k, k ∉ deletedKeys data -> fst r !! k = b !! k)
  | DeleteFailure _ _ =>
      (400 <= fst (snd r))%nat
      /\ (forall k, fst r !! k = None \/ fst r !! k = b !! k)
      /\ (fst (snd r) = 404%nat -> fst r = b)
  end.
Proof.
  destruct listing as [[|x keys]|name]; cbn zeta.
  - cbn. split; [lia|]. split; auto.
  - unfold delete_file.
    destruct (first_rejection del (x :: keys)) as [name|] eqn:E.
    + unfold delete_error. destruct (decide _); cbn [fst snd];
        (split; [lia|]); (split; [|discriminate]);
        intros k; rewrite apply_deletes_lookup; case_bool_decide; auto.
    + cbn [fst snd deletedKeys deletedCount].
      rewrite first_rejection_None in E.
      split; [done|]. split; [done|]. split; [done|]. split; [done|]. split.
      * intros k Hk. rewrite apply_deletes_lookup.
        by rewrite bool_decide_eq_true_2 by auto.
      * intros k Hk. rewrite apply_deletes_lookup.
        by rewrite bool_decide_eq_false_2 by tauto.
  - unfold delete_file, delete_error. destruct (decide _); cbn [fst snd];
      (split; [lia|]); split; auto; discriminate.
Qed.

Lemma fresh_listing (b : bucket) (key : jsstring) obj (prefix : jsstring) maxKeys
    (contents : list jsstring) :
  prefix `prefix_of` key ->
  (forall k, prefix `prefix_of` k -> b !! k = None) ->
  (1 <= maxKeys)%nat ->
  s3_listing (<[key := obj]> b) prefix maxKeys contents ->
  contents = [key].
Proof.
  intros Hp Hfresh Hmax (Hnd & Hsound & Hlen & Hcomplete).
  assert (forall k, k ∈ contents -> k = key) as Honly.
  { intros k [Hk Hpk]%Hsound. destruct (decide (k = key)); [done|].
    rewrite lookup_insert_ne, Hfresh in Hk by done. by destruct Hk. }
  destruct contents as [|x [|y rest]].
  - exfalso. assert (key ∈ @nil jsstring) as H%elem_of_nil; [|done].
    apply Hcomplete; [simpl; lia| |done]. by rewrite lookup_insert_eq.
  - f_equal. apply Honly. by left.
  - exfalso. apply NoDup_cons in Hnd as [Hx _]. apply Hx.
    rewrite (Honly x) by (by left). rewrite <- (Honly y) at 1 by (right; by left).
    by left.
Qed.

Lemma job_prefix_s3Key jobId filename :
  job_prefix jobId `prefix_of` s3Key jobId filename.
Proof.
  exists filename. unfold job_prefix, s3Key. by rewrite <- !app_assoc.
Qed.

(** X7. Uploading into a job folder that was empty and then deleting that
    job gives back the bucket as it was: whatever S3 lists for the job is
    exactly the uploaded key, and the answer counts one deleted object. *)
Theorem upload_then_delete_restores (b : bucket) (file : MulterFile) (env : UploadEnv)
    (etag : jsstring) (contents : list jsstring) :
  (forall k, job_prefix (uuid env) `prefix_of` k -> b !! k = None) ->
  let b1 := fst (post_file b (Some file) env (S3Ok etag)) in
  s3_listing b1 (job_prefix (uuid env)) 10 contents ->
  exists key,
    contents = [key]
    /\ is_Some (b1 !! key)
    /\ delete_file b1 (uuid env) (Listed contents) (fun _ => None)
       = (b, (200%nat,
              DeleteSuccess {| deleted_fileId := uuid env; deletedCount := 1;
                               deletedKeys := [key] |})).
Proof.
  intros Hfresh b1 Hlist. subst b1. rewrite post_file_key in *.
  set (key := s3Key _ _) in *.
  pose proof (job_prefix_s3Key (uuid env)
                (generateUniqueFilename (timestamp env) (randomString env)
                   (sanitizeFilename (originalname file)))) as Hp.
  fold key in Hp.
  apply fresh_listing in Hlist; [|done|done|lia]. subst contents.
  exists key. split; [done|]. split; [by rewrite lookup_insert_eq|].
  cbn. f_equal. rewrite delete_insert_eq. apply delete_id. by apply Hfresh.
Qed.

End Buckets.

Section PollingMore.

Variables now fileId : jsstring.

Lemma polling_app outs1 outs2 p :
  polling now fileId (outs1 ++ outs2) p
  = polling now fileId outs2 (polling now fileId outs1 p).
Proof.
  revert p. induction outs1 as [|o outs1 IH]; intros p; [done|].
  cbn [app polling]. destruct (poll_round now fileId o p) as [p'|] eqn:E; [apply IH|].
  symmetry. apply polling_stopped. unfold poll_round in E.
  by destruct (pollTimer p).
Qed.

Lemma poll_round_delivers k p d message :
  polling_page k p -> (k < 10)%nat ->
  exists p',
    poll_round now fileId (Resolved true (Some d) message) p = Some p'
    /\ job_state p' = Completed
    /\ pollTimer p' = None
    /\ pollingAttempts (state p') = S k
    /\ error (state p') = None
    /\ (analysisResult <$> selectedFile (state p')) = Some (Some d)
    /\ log p' = log p ++ [Waited 5000; Fetched fileId].
Proof.
  intros (Ht & He & Hk & Htimer) Hlt.
  apply Nat.ltb_lt in Hlt as Hltb. rewrite Hltb in Htimer.
  unfold poll_round. rewrite Htimer, poll_timer_fires_spec.
  eexists. split; [reflexivity|].
  unfold commit. cbn [state fetch_settle fetch_prefix error pollTimer].
  destruct (decide _) as [_|Hne]; cbn [state pollTimer log]; unfold job_state;
    cbn [state analysisTriggered error loading selectedFile analysisResult
         pollingAttempts truthy_opt fmap option_fmap option_map];
    rewrite ?Ht, ?Hk; cbn [negb]; done.
Qed.

Lemma polling_log outs : forall k p,
  polling_page k p -> (k <= 10)%nat ->
  exists n,
    (n <= 10 - k)%nat /\ (n <= length outs)%nat
    /\ log (polling now fileId outs p)
       = log p ++ List.concat (replicate n [Waited 5000; Fetched fileId])
    /\ pollingAttempts (state (polling now fileId outs p)) = (k + n)%nat.
Proof.
  induction outs as [|o outs IH]; intros k p Hp Hk.
  - exists 0%nat. cbn. rewrite app_nil_r, Nat.add_0_r.
    destruct Hp as (_ & _ & -> & _). repeat split; lia.
  - destruct (decide (k = 10%nat)) as [->|Hne].
    + exists 0%nat. cbn [polling].
      rewrite (poll_round_exhausted now fileId 10%nat p o) by (done || lia).
      cbn. rewrite app_nil_r. destruct Hp as (_ & _ & -> & _). repeat split; lia.
    + cbn [polling]. destruct (unavailable o) eqn:Hu.
      * destruct (poll_round_unavailable now fileId k p o) as (p' & -> & Hp' & _ & Hlog);
          [done|lia|done|].
        destruct (IH (S k) p' Hp' ltac:(lia)) as (n & Hn & Hlen & Hl & Ha).
        exists (S n). cbn [length replicate concat].
        rewrite Hl, Hlog, Ha, <- app_assoc. repeat split; (lia || done).
      * destruct o as [[] [d|] m|]; try discriminate.
        destruct (poll_round_delivers k p d m) as (p' & -> & _ & Ht' & Hk' & _ & _ & Hlog);
          [done|lia|].
        rewrite polling_stopped by done. exists 1%nat.
        cbn [length replicate concat]. rewrite Hlog, Hk', app_nil_r.
        repeat split; (lia || done).
Qed.

End PollingMore.

Section PollingTheorems.

Variables now fileId : jsstring.

(** X8. Whatever the results endpoint answers, a page that has entered
    polling goes through at most ten rounds, each a 5000 ms wait followed
    by one fetch, and [pollingAttempts] is the number of rounds. *)
Theorem polling_never_exceeds_ten (p0 : Page) (outs : list FetchOutcome) :
  polling_page 0 p0 ->
  let p := polling now fileId outs p0 in
  exists n,
    (n <= 10)%nat /\ (n <= length outs)%nat
    /\ log p = log p0 ++ List.concat (replicate n [Waited 5000; Fetched fileId])
    /\ fetches (log p) = (fetches (log p0) + n)%nat
    /\ waits (log p) = waits (log p0) ++ replicate n 5000%nat
    /\ pollingAttempts (state p) = n.
Proof.
  intros Hp p.
  destruct (polling_log now fileId outs 0%nat p0 Hp ltac:(lia)) as (n & Hn & Hlen & Hl & Ha).
  exists n. fold p in Hl, Ha. rewrite Hl.
  rewrite fetches_rounds, waits_app, waits_rounds. repeat split; (lia || done).
Qed.

(** X9. When fewer than ten failed reads are followed by one that delivers
    the result, the page stops there: the job is completed, no timeout is
    armed, the error is cleared, the analysis is shown, and the answers
    that would follow are never asked for. *)
Theorem polling_stops_at_first_result (p0 : Page) (fails rest : list FetchOutcome)
    (d : ResultData) (message : option jsstring) :
  polling_page 0 p0 ->
  Forall (fun o => unavailable o = true) fails ->
  (length fails < 10)%nat ->
  let p := polling now fileId (fails ++ Resolved true (Some d) message :: rest) p0 in
  job_state p = Completed
  /\ pollTimer p = None
  /\ error (state p) = None
  /\ (analysisResult <$> selectedFile (state p)) = Some (Some d)
  /\ fetches (log p) = (fetches (log p0) + length fails + 1)%nat
  /\ pollingAttempts (state p) = S (length fails).
Proof.
  intros Hp Hall Hlen p. subst p. rewrite polling_app.
  destruct (polling_rounds now fileId fails 0%nat p0 Hp ltac:(lia) Hall) as [Hpage Hlog].
  rewrite Nat.sub_0_r, Nat.add_0_l, Nat.min_l in * by lia.
  cbn [polling].
  destruct (poll_round_delivers now fileId _ _ d message Hpage Hlen)
    as (p' & -> & Hjs & Ht & Ha & He & Hs & Hl).
  rewrite polling_stopped by done.
  rewrite Hl, Hlog.
  assert (forall l : list Event, fetches (l ++ [Waited 5000; Fetched fileId])
                                 = S (fetches l)) as Hf.
  { intros l. unfold fetches. rewrite List.filter_app, length_app. simpl. lia. }
  rewrite Hf, fetches_rounds. repeat split; (done || lia).
Qed.

End PollingTheorems.

Section Untriggered.

Variables now fileId : jsstring.

Lemma polling_effect_untriggered st :
  analysisTriggered st = false -> polling_effect st = None.
Proof. intros H. unfold polling_effect. by rewrite H. Qed.

Lemma commit_untriggered p st' :
  pollTimer p = None -> analysisTriggered st' = false ->
  commit p st' = {| state := st'; pollTimer := None; log := log p |}.
Proof.
  intros Hp Ht. unfold commit. destruct (decide _); [by rewrite Hp|].
  by rewrite polling_effect_untriggered.
Qed.

Lemma fetch_settle_triggered o st :
  analysisTriggered (fetch_settle now fileId o st) = analysisTriggered st
  /\ pollingAttempts (fetch_settle now fileId o st) = pollingAttempts st.
Proof. by destruct o as [[] [d|] m|s m]. Qed.

Lemma fetchAnalysisResults_untriggered o p :
  pollTimer p = None -> analysisTriggered (state p) = false ->
  pollTimer (fetchAnalysisResults now fileId o p) = None
  /\ analysisTriggered (state (fetchAnalysisResults now fileId o p)) = false
  /\ log (fetchAnalysisResults now fileId o p) = log p ++ [Fetched fileId].
Proof.
  intros Hp Ht. unfold fetchAnalysisResults.
  rewrite (commit_untriggered p) by done.
  unfold record. cbn [state pollTimer log].
  rewrite commit_untriggered; cbn [state pollTimer log];
    [| done | by rewrite (proj1 (fetch_settle_triggered _ _))].
  by rewrite (proj1 (fetch_settle_triggered _ _)).
Qed.

(** X10. A visit whose trigger was not sent (a search parameter is missing)
    or was rejected fetches once and never polls: no timeout is armed
    whatever that fetch returns. *)
Theorem no_trigger_no_polling (sp : SearchParams) (ok : bool)
    (first : FetchOutcome) (outs : list FetchOutcome) :
  param_fileId sp = Some fileId ->
  truthy fileId = true ->
  ok && truthy_opt (param_s3Key sp) && truthy_opt (param_s3Bucket sp)
     && truthy_opt (param_fileName sp) = false ->
  let p := initAnalysis now sp ok first mount in
  job_state p = NotTriggered
  /\ pollTimer p = None
  /\ fetches (log p) = 1%nat
  /\ polling now fileId outs p = p.
Proof.
  intros Hf Ht Hno p. subst p. unfold initAnalysis. rewrite Hf, Ht.
  set (full := truthy_opt (param_s3Key sp) && truthy_opt (param_s3Bucket sp)
               && truthy_opt (param_fileName sp)).
  assert (exists l, let q := if full
                             then record (Waited 5000) (triggerLambdaAnalysis fileId ok mount)
                             else mount in
                    pollTimer q = None /\ analysisTriggered (state q) = false
                    /\ log q = l /\ fetches l = 0%nat) as (l & Hq).
  { destruct full eqn:Hfull.
    - assert (ok = false) as -> by (destruct ok; [|done]; subst full;
                                     rewrite !andb_true_l, <- !andb_assoc in Hno;
                                     by rewrite andb_assoc, Hfull in Hno).
      eexists. cbn. repeat split; reflexivity.
    - eexists. cbn. repeat split; reflexivity. }
  cbn zeta in Hq. destruct Hq as (Hp & Htr & Hl & Hfl).
  destruct (fetchAnalysisResults_untriggered first _ Hp Htr) as (Hp' & Htr' & Hl').
  split; [by unfold job_state; rewrite Htr'|]. split; [done|].
  split; [|by apply polling_stopped].
  rewrite Hl', Hl. unfold fetches in *. rewrite List.filter_app, length_app, Hfl. done.
Qed.

End Untriggered.

Section Backend.

Variable parse : jsstring -> Parsed.
Variable elsewhere : jsstring -> World -> FetchOutcome.
Variables now fileId : jsstring.

Lemma result_key_inj a b : result_key a = result_key b -> a = b.
Proof.
  unfold result_key. intros H%app_inv_head. by apply app_inv_tail in H.
Qed.

Lemma url_safe_truthy : url_safe fileId = true -> truthy fileId = true.
Proof.
  unfold url_safe. intros H. by repeat (apply andb_true_iff in H as [H _]).
Qed.

Lemma fetch_from_route (w : World) :
  url_safe fileId = true ->
  fetch_from parse elsewhere fileId w
  = getAnalysisResults (Some (get_results parse w fileId None)).
Proof. intros Hs. unfold fetch_from. by rewrite Hs. Qed.

Lemma get_results_missing (w : World) :
  truthy fileId = true ->
  results w !! result_key fileId = None ->
  get_results parse w fileId None
  = (404%nat,
     ResultsFailure (js "Results not found")
       (js "Analysis results not found. Analysis may still be in progress or failed.")).
Proof. intros Ht Hr. unfold get_results. rewrite Ht, Hr. reflexivity. Qed.

Lemma fetch_from_missing (w : World) :
  url_safe fileId = true ->
  results w !! result_key fileId = None ->
  fetch_from parse elsewhere fileId w
  = Thrown (Some 404%nat)
      (Some (js "Analysis results not found. Analysis may still be in progress or failed.")).
Proof.
  intros Hs Hr. rewrite fetch_from_route by done.
  rewrite get_results_missing by (done || by apply url_safe_truthy). reflexivity.
Qed.

Lemma fetch_from_written (w : World) text d :
  url_safe fileId = true ->
  parse text = ObjectValue d ->
  fetch_from parse elsewhere fileId (write_result fileId text w)
  = Resolved true (Some d) (Some (js "Analysis results retrieved successfully")).
Proof.
  intros Hs Hp. rewrite fetch_from_route by done.
  unfold get_results, write_result. rewrite (url_safe_truthy Hs).
  cbn [negb results]. by rewrite lookup_insert_eq, Hp.
Qed.

Lemma poll_round_not_found k p message :
  polling_page k p -> (k < 10)%nat ->
  exists p',
    poll_round now fileId (Thrown (Some 404%nat) message) p = Some p'
    /\ error (state p')
       = Some (js "Analysis results not found. The analysis may still be in progress, please wait and try again.").
Proof.
  intros (_ & _ & Hk & Htimer) Hlt.
  apply Nat.ltb_lt in Hlt as Hltb. rewrite Hltb in Htimer.
  unfold poll_round. rewrite Htimer, poll_timer_fires_spec.
  eexists. split; [reflexivity|].
  unfold commit. by destruct (decide _).
Qed.

(** X11. Page and backend together, for a file identifier that the URL
    carries unchanged: while the result object of the file is missing, the
    status route says ['pending'], the results route answers 404, which
    [getAnalysisResults] throws as status 404, and that is what every fetch
    of the page gets; after ten polls the page has timed out showing the
    not-found message. *)
Theorem missing_result_times_out (p0 : Page) (worlds : list World) :
  url_safe fileId = true ->
  polling_page 0 p0 ->
  Forall (fun w => results w !! result_key fileId = None) worlds ->
  (10 <= length worlds)%nat ->
  let p := polling now fileId (List.map (fetch_from parse elsewhere fileId) worlds) p0 in
  job_state p = TimedOut
  /\ pollTimer p = None
  /\ fetches (log p) = (fetches (log p0) + 10)%nat
  /\ error (state p)
     = Some (js "Analysis results not found. The analysis may still be in progress, please wait and try again.")
  /\ Forall (fun w =>
       get_analysis_status w fileId None
       = (200%nat, StatusSuccess fileId (js "pending"))
       /\ get_results parse w fileId None
          = (404%nat,
             ResultsFailure (js "Results not found")
               (js "Analysis results not found. Analysis may still be in progress or failed."))
       /\ getAnalysisResults (Some (get_results parse w fileId None))
          = Thrown (Some 404%nat)
              (Some (js "Analysis results not found. Analysis may still be in progress or failed."))
       /\ fetch_from parse elsewhere fileId w
          = getAnalysisResults (Some (get_results parse w fileId None))) worlds.
Proof.
  intros Hs Hp Hall Hlen p. pose proof (url_safe_truthy Hs) as Ht.
  assert (List.map (fetch_from parse elsewhere fileId) worlds
          = replicate (length worlds)
              (Thrown (Some 404%nat)
                 (Some (js "Analysis results not found. Analysis may still be in progress or failed."))))
    as Houts.
  { clear Hlen. induction Hall as [|w ws Hw _ IH]; [done|].
    cbn [List.map length replicate]. by rewrite IH, fetch_from_missing. }
  subst p. rewrite Houts.
  replace (length worlds) with (10 + (length worlds - 10))%nat by lia.
  rewrite replicate_add, polling_app.
  set (nf := Thrown _ _).
  destruct (polling_rounds now fileId (replicate 10 nf) 0%nat p0 Hp ltac:(lia))
    as [Hpage Hlog].
  { apply Forall_replicate. reflexivity. }
  rewrite length_replicate in *. cbn [Nat.sub Nat.min Nat.add] in Hpage, Hlog.
  pose proof Hpage as (_ & _ & _ & Htimer). cbn in Htimer.
  rewrite polling_stopped by done.
  split; [by rewrite (polling_page_state _ _ Hpage)|]. split; [done|].
  split; [by rewrite Hlog, fetches_rounds|]. split.
  - change (replicate 10 nf) with (replicate 9 nf ++ [nf]). rewrite polling_app.
    destruct (polling_rounds now fileId (replicate 9 nf) 0%nat p0 Hp ltac:(lia))
      as [Hpage9 _].
    { apply Forall_replicate. reflexivity. }
    rewrite length_replicate in Hpage9. cbn [Nat.sub Nat.min Nat.add] in Hpage9.
    destruct (poll_round_not_found 9 _
                (Some (js "Analysis results not found. Analysis may still be in progress or failed."))
                Hpage9 ltac:(lia)) as (p' & Hr & He).
    cbn [polling]. subst nf. by rewrite Hr.
  - eapply Forall_impl; [exact Hall|]. intros w Hw. cbn beta in *.
    split; [unfold get_analysis_status; by rewrite Ht, Hw|].
    rewrite (get_results_missing w Ht Hw).
    split; [reflexivity|]. split; [reflexivity|].
    rewrite fetch_from_route by done. by rewrite (get_results_missing w Ht Hw).
Qed.

(** X12. Page and backend together, for a file identifier that the URL
    carries unchanged: once the result object is written and parses to an
    object, the status route says ['completed'], the fetch of the page is
    answered by the results route for that identifier, and the next poll of
    the page completes the job and shows that object. *)
Theorem written_result_completes (k : nat) (p : Page) (w : World)
    (text : jsstring) (d : ResultData) :
  url_safe fileId = true ->
  polling_page k p -> (k < 10)%nat ->
  parse text = ObjectValue d ->
  let w' := write_result fileId text w in
  get_analysis_status w' fileId None = (200%nat, StatusSuccess fileId (js "completed"))
  /\ fetch_from parse elsewhere fileId w'
     = getAnalysisResults (Some (get_results parse w' fileId None))
  /\ exists p',
       poll_round now fileId (fetch_from parse elsewhere fileId w') p = Some p'
       /\ job_state p' = Completed
       /\ pollTimer p' = None
       /\ error (state p') = None
       /\ (analysisResult <$> selectedFile (state p')) = Some (Some d).
Proof.
  intros Hs Hp Hk Hparse w'. pose proof (url_safe_truthy Hs) as Ht. split; [|split].
  - unfold get_analysis_status, w', write_result. rewrite Ht. cbn [negb results].
    by rewrite lookup_insert_eq.
  - by apply fetch_from_route.
  - subst w'. rewrite (fetch_from_written w text d) by done.
    destruct (poll_round_delivers now fileId k p d
                (Some (js "Analysis results retrieved successfully")) Hp Hk)
      as (p' & Hr & Hj & Hti & _ & He & Hsel & _).
    eauto 10.
Qed.
(** X13. Writing the result of one file makes its status ['completed'] and
    its results no longer 404, where both said pending and 404 before; the
    answers for every other file are unchanged. *)
Theorem write_result_flips_one_status (w : World) (other text : jsstring)
    (fault : option jsstring) :
  truthy fileId = true ->
  let w' := write_result fileId text w in
  get_analysis_status w' fileId None = (200%nat, StatusSuccess fileId (js "completed"))
  /\ fst (get_results parse w' fileId None) ≠ 404%nat
  /\ (results w !! result_key fileId = None ->
      get_analysis_status w fileId None = (200%nat, StatusSuccess fileId (js "pending"))
      /\ fst (get_results parse w fileId None) = 404%nat)
  /\ (other ≠ fileId ->
      get_analysis_status w' other fault = get_analysis_status w other fault
      /\ get_results parse w' other fault = get_results parse w other fault).
Proof.
  intros Ht w'. subst w'. unfold get_analysis_status, get_results, write_result.
  rewrite Ht. cbn [negb results]. rewrite lookup_insert_eq.
  split; [done|]. split; [by destruct (parse text)|]. split.
  - intros ->. done.
  - intros Hne. rewrite lookup_insert_ne; [done|].
    intros E%result_key_inj. done.
Qed.

End Backend.

Section Listing.

Lemma replace_first_unfold pat rep s :
  replace_first pat rep s
  = if bool_decide (pat `prefix_of` s) then rep ++ drop (length pat) s
    else match s with
         | [] => []
         | c :: rest => c :: replace_first pat rep rest
         end.
Proof. by destruct s. Qed.

Lemma replace_first_no_dot (a b : jsstring) :
  dot ∉ a ->
  replace_first (js ".json") [] (a ++ js ".json" ++ b) = a ++ b.
Proof.
  intros Hn. induction a as [|c a IH]; rewrite replace_first_unfold.
  - cbn [app]. rewrite bool_decide_eq_true_2 by (by eexists).
    by rewrite drop_app_length.
  - apply not_elem_of_cons in Hn as [Hc Ha].
    rewrite bool_decide_eq_false_2.
    + cbn [app]. by rewrite IH.
    + intros [x Hx]. vm_compute in Hx. injection Hx as -> _. done.
Qed.

(** X14. The [fileId] that [GET /results] lists for the result of a file
    without a dot in its identifier is [results/] followed by the
    identifier, not the identifier: asking for its results would look up a
    different key. *)
Theorem listed_fileId_keeps_folder (fileId : jsstring) :
  dot ∉ fileId ->
  listed_fileId (result_key fileId) = js "results/" ++ fileId
  /\ listed_fileId (result_key fileId) ≠ fileId
  /\ result_key (listed_fileId (result_key fileId)) ≠ result_key fileId.
Proof.
  intros Hn.
  assert (listed_fileId (result_key fileId) = js "results/" ++ fileId) as E.
  { unfold listed_fileId, result_key.
    rewrite <- (app_nil_r (js ".json")) at 2. rewrite app_assoc.
    rewrite replace_first_no_dot; [by rewrite app_nil_r|].
    rewrite not_elem_of_app. split; [|done].
    intros H%list_elem_of_In. vm_compute in H. intuition discriminate. }
  rewrite E. split; [done|].
  assert (js "results/" ++ fileId ≠ fileId) as Hne.
  { intros H. apply (f_equal length) in H. rewrite length_app in H.
    vm_compute (length (js "results/")) in H. lia. }
  split; [done|]. intros H%result_key_inj. done.
Qed.

End Listing.

Section Toggle.

Lemma toggleExpanded_elem (index x : nat) (prev : gset nat) :
  x ∈ toggleExpanded index prev
  <-> (x = index /\ x ∉ prev) \/ (x ≠ index /\ x ∈ prev).
Proof.
  unfold toggleExpanded. case_bool_decide as Hin;
    rewrite ?elem_of_difference, ?elem_of_union, ?elem_of_singleton;
    destruct (decide (x = index)) as [->|Hne]; tauto.
Qed.

(** X15. [toggleExpanded] flips the membership of its index and of no other,
    so toggling twice gives the set back, and toggles of two indexes
    commute. *)
Theorem toggleExpanded_involutive (index other : nat) (prev : gset nat) :
  toggleExpanded index (toggleExpanded index prev) = prev
  /\ (index ∈ toggleExpanded index prev <-> index ∉ prev)
  /\ (other ≠ index -> (other ∈ toggleExpanded index prev <-> other ∈ prev))
  /\ toggleExpanded index (toggleExpanded other prev)
     = toggleExpanded other (toggleExpanded index prev).
Proof.
  split; [|split; [|split]].
  - apply set_eq. intros x. rewrite !toggleExpanded_elem.
    destruct (decide (x = index)), (decide (x ∈ prev)); tauto.
  - rewrite toggleExpanded_elem. tauto.
  - intros Hne. rewrite toggleExpanded_elem. tauto.
  - apply set_eq. intros x. rewrite !toggleExpanded_elem.
    destruct (decide (x = index)), (decide (x = other)), (decide (x ∈ prev)); tauto.
Qed.

End Toggle.

Section Votes.

Lemma upper_MALICIOUS : toUpperCase (js "MALICIOUS") = js "MALICIOUS".
Proof. reflexivity. Qed.

(** X16. On the same three results the comparison view counts at least the
    malicious votes that the README's vote counts, so a [MALICIOUS] verdict
    of the README is a malicious consensus of the view; when the rule-based
    verdict is unchanged by [toUpperCase] the two count the same and agree
    on the verdict. *)
Theorem readme_and_view_verdicts (stata : StataResult) (gnn bert : ModelResult) :
  let r := three_way_consensus (Some (as_model gnn)) (Some (as_model bert))
             (as_analysis stata) in
  exists c,
    consensus_verdict stata gnn bert = Some c
    /\ totalAnalyses r = 3%nat
    /\ (agreement_level c <= maliciousCount r)%nat
    /\ (final_verdict c = js "MALICIOUS" -> consensus r = true)
    /\ (toUpperCase (stata_verdict stata) = stata_verdict stata ->
        agreement_level c = maliciousCount r
        /\ (final_verdict c = js "MALICIOUS" <-> consensus r = true)).
Proof.
  unfold consensus_verdict, three_way_consensus, stataMalicious, as_model, as_analysis.
  cbn [risk_assessment verdict is_malicious from_option stata_verdict
       model_is_malicious vote_stata vote_gnn vote_bert].
  set (stable := toUpperCase (stata_verdict stata) = stata_verdict stata).
  assert (stable -> stata_verdict stata = js "MALICIOUS"
                    <-> toUpperCase (stata_verdict stata) = js "MALICIOUS") as Hst.
  { unfold stable. by intros ->. }
  assert (stata_verdict stata = js "MALICIOUS"
          -> toUpperCase (stata_verdict stata) = js "MALICIOUS") as Hup.
  { by intros ->. }
  clearbody stable.
  destruct gnn as [[]], bert as [[]]; cbn [model_is_malicious];
    case_bool_decide as Hs; case_bool_decide as Hv;
    try (exfalso; by apply Hv, Hup);
    vm_compute; eexists; (split; [reflexivity|]); vm_compute;
    repeat split; intros; try done; try lia; try congruence;
    try (exfalso; tauto).
Qed.

(** X17. A malicious consensus of the view stays malicious when a model's
    result is added or replaced by a malicious one, and when the rule-based
    verdict becomes [MALICIOUS]. *)
Theorem malicious_votes_are_monotone (mlAnalysis bertAnalysis : option MLAnalysis)
    (analysis : StaticAnalysis) (risk conf : Q) :
  let malicious :=
    Some {| is_malicious := true; risk_score := risk; ml_confidence := conf |} in
  consensus (three_way_consensus mlAnalysis bertAnalysis analysis) = true ->
  consensus (three_way_consensus malicious bertAnalysis analysis) = true
  /\ consensus (three_way_consensus mlAnalysis malicious analysis) = true
  /\ consensus (three_way_consensus mlAnalysis bertAnalysis
                  (stata_with (Some (js "MALICIOUS")))) = true.
Proof.
  cbn zeta. unfold three_way_consensus.
  change (stataMalicious (stata_with (Some (js "MALICIOUS")))) with true.
  destruct mlAnalysis as [[[] ? ?]|], bertAnalysis as [[[] ? ?]|];
    destruct (stataMalicious analysis); vm_compute; intros; repeat split; congruence.
Qed.

End Votes.

Section ModelRoute.




End ModelRoute.

Section ValidationFacts.

Variable mime_lookup : jsstring -> option jsstring.
Variable show_number : Q -> jsstring.

Lemma join_truthy sep (e : jsstring) (es : list jsstring) :
  truthy e = true -> truthy (join sep (e :: es)) = true.
Proof. destruct e; [done|]. by destruct es. Qed.

Lemma validateFile_errors env file :
  let errors := snd (validateFile mime_lookup show_number env file) in
  errors = [] \/ exists e es, errors = e :: es /\ truthy e = true.
Proof.
  unfold validateFile. cbn [snd].
  destruct (too_large env file); [right; by eexists _, _|].
  destruct (type_refused mime_lookup env file); [right; by eexists _, _|].
  destruct (name_refused file); [right; by eexists _, _|]. by left.
Qed.

(** X19. A file passes [validateFile] exactly when none of the three checks
    fires; the filter accepts it then, and otherwise fails with the
    messages joined by a comma, which [handleMulterError] answers with
    status 400 and ['File validation error'] (the message is never empty,
    so the error is never passed on). *)
Theorem rejected_file_is_answered (env : ValidationEnv) (file : IncomingFile)
    (limit_text : jsstring) :
  let v := validateFile mime_lookup show_number env file in
  (fst v = true
   <-> too_large env file = false
       /\ type_refused mime_lookup env file = false
       /\ name_refused file = false)
  /\ match fileFilter mime_lookup show_number env file with
     | Accept => fst v = true /\ snd v = []
     | RejectWith message =>
         fst v = false
         /\ message = join (js ", ") (snd v)
         /\ handleMulterError limit_text (OtherError (Some message))
            = Some (400%nat, js "File validation error", message)
     end.
Proof.
  cbn zeta. split.
  - unfold validateFile. cbn [fst].
    destruct (too_large env file), (type_refused mime_lookup env file),
      (name_refused file); cbn; split; try done; intros (? & ? & ?); done.
  - unfold fileFilter.
    destruct (validateFile_errors env file) as [E|(e & es & E & He)].
    + unfold validateFile in *. cbn [fst snd] in *. rewrite E. cbn. done.
    + unfold validateFile in *. cbn [fst snd] in *. rewrite E.
      cbn [length bool_decide]. rewrite bool_decide_eq_false_2 by done.
      split; [done|]. split; [done|].
      unfold handleMulterError. cbn [truthy_opt]. by rewrite join_truthy.
Qed.

(** X20. Without [ALLOWED_FILE_TYPES] every type passes; with it a type
    passes exactly when it is one of the comma-separated entries, so that
    the empty setting lets only the empty type through. *)
Theorem allow_list_semantics (env : ValidationEnv) (file : IncomingFile) :
  match ALLOWED_FILE_TYPES env with
  | None => type_refused mime_lookup env file = false
  | Some list =>
      (type_refused mime_lookup env file = false
       <-> fileType mime_lookup file ∈ split comma list)
      /\ (list = [] ->
          (type_refused mime_lookup env file = false
           <-> fileType mime_lookup file = []))
  end.
Proof.
  unfold type_refused, allowedTypes.
  destruct (ALLOWED_FILE_TYPES env) as [l|]; [|done].
  pose proof (split_nonempty comma l) as Hne.
  assert ((0 <? length (split comma l))%nat = true) as ->.
  { apply Nat.ltb_lt. destruct (split comma l); [done|simpl; lia]. }
  cbn [andb]. rewrite negb_false_iff, bool_decide_eq_true.
  split; [done|]. intros ->. cbn. by rewrite list_elem_of_singleton.
Qed.

End ValidationFacts.

Section Proceed.

(** X21. From upload to trigger: for the listing entry of an accepted
    upload, [handleProceed] hands the page the job identifier and the key,
    the page sends its trigger for that identifier, and the trigger route
    accepts it with a payload naming the uploaded key. *)
Theorem uploaded_file_gets_triggered (b : bucket) (file : MulterFile) (env : UploadEnv)
    (etag bucket_name now isoNow : jsstring) (head : option S3Object) (ok : bool)
    (first : FetchOutcome) (w : World) (code : nat) :
  uuid_shape (uuid env) = true ->
  slash ∉ timestamp env ->
  slash ∉ randomString env ->
  truthy bucket_name = true ->
  let key := s3Key (uuid env)
               (generateUniqueFilename (timestamp env) (randomString env)
                  (sanitizeFilename (originalname file))) in
  let sp := handleProceed (file_entry key head) (Some bucket_name) in
  is_Some (fst (post_file b (Some file) env (S3Ok etag)) !! key)
  /\ param_fileId sp = Some (uuid env)
  /\ param_s3Key sp = Some key
  /\ (exists rest,
        log (initAnalysis now sp ok first mount) = TriggerSent (uuid env) :: rest)
  /\ post_trigger w (uuid env) (trigger_body sp) isoNow (LambdaAccepted code)
     = ({| invocations :=
             {| payload_fileId := uuid env;
                payload_s3Bucket := bucket_name;
                payload_s3Key := key;
                payload_fileName := default [] (param_fileName sp);
                payload_analysisType := js "static";
                payload_resultsBucket := RESULTS_BUCKET;
                payload_timestamp := isoNow |} :: invocations w;
           results := results w |},
        (202%nat, TriggerProcessing (uuid env) (js "processing") code)).
Proof.
  intros Hu Hts Hr Hb key sp.
  pose proof Hu as [Hne Hj]%uuid_shape_units.
  destruct (unique_filename_no_slash (timestamp env) (randomString env)
              (sanitizeFilename (originalname file)) Hts Hr) as [Hf Ht].
  { apply sanitizeFilename_no_slash. }
  pose proof (s3Key_segments _ _ Hj Hf) as Hseg. fold key in Hseg.
  assert (truthy (uuid env) = true) as Htu by (by destruct (uuid env)).
  assert (truthy key = true) as Htk by reflexivity.
  assert (param_fileId sp = Some (uuid env) /\ param_s3Key sp = Some key
          /\ param_s3Bucket sp = Some bucket_name
          /\ truthy_opt (param_fileName sp) = true) as (Hp1 & Hp2 & Hp3 & Hp4).
  { subst sp. unfold handleProceed.
    destruct (file_entry_id key head) as (Hid & _ & Hk).
    cbn [param_fileId param_s3Key param_s3Bucket param_fileName].
    rewrite Hid, Hk, Hseg. cbn [lookup list_lookup or_else]. rewrite Htu, Hb.
    repeat split. cbn [truthy_opt].
    assert (entry_filename (file_entry key head)
            = generateUniqueFilename (timestamp env) (randomString env)
                (sanitizeFilename (originalname file))) as ->.
    { destruct head; unfold file_entry; rewrite Hseg;
        cbn [entry_filename lookup list_lookup or_else]; by rewrite Ht. }
    destruct (truthy (entry_originalName (file_entry key head))) eqn:Ho;
      cbn [or_else]; by rewrite ?Ho. }
  split; [rewrite post_file_key; by rewrite lookup_insert_eq|].
  split; [done|]. split; [done|]. split.
  - destruct (initAnalysis_triggers now (uuid env) sp ok first) as (rest & Hl & _);
      rewrite ?Hp1, ?Hp2, ?Hp3; try done. by exists rest.
  - unfold post_trigger, trigger_body. cbn [body_s3Key body_s3Bucket body_fileName].
    rewrite Hp2, Hp3, Htu. cbn [truthy_opt]. rewrite Htk, Hb. cbn [negb orb default from_option id].
    destruct (param_fileName sp) as [n|] eqn:En; [|done].
    cbn [truthy_opt] in Hp4. cbn [or_else default from_option id]. by rewrite Hp4.
Qed.

End Proceed.

(** A concrete string does not hold a given code unit. *)
Ltac absent_unit :=
  let H := fresh in
  intros H%list_elem_of_In; vm_compute in H; intuition discriminate.

Lemma sample_page_polling : polling_page 0 sample_page.
Proof. apply (initAnalysis_enters_polling _ (js "f1")); reflexivity. Qed.

Lemma singleton_listing (b : bucket) (key : jsstring) obj (prefix : jsstring) maxKeys :
  prefix `prefix_of` key ->
  (forall k, prefix `prefix_of` k -> b !! k = None) ->
  (1 <= maxKeys)%nat ->
  s3_listing (<[key := obj]> b) prefix maxKeys [key].
Proof.
  intros Hp Hfresh Hmax. repeat split.
  - apply NoDup_singleton.
  - apply list_elem_of_singleton in H as ->. by rewrite lookup_insert_eq.
  - by apply list_elem_of_singleton in H as ->.
  - simpl. lia.
  - intros _ k Hk Hpk. destruct (decide (k = key)) as [->|Hne]; [by left|].
    rewrite lookup_insert_ne, Hfresh in Hk by done. by destruct Hk.
Qed.

(** The property on the sample inputs. *)
Lemma stored_filename_round_trip_witness :
  exists data,
    snd (post_file ∅ (Some sample_file) sample_env (S3Ok (js "etag")))
    = (200%nat, UploadSuccess (js "File uploaded successfully") data)
    /\ split slash (data_s3Key data)
       = [js "uploads"; data_jobId data; data_filename data]
    /\ (forall head,
          entry_filename (file_entry (data_s3Key data) head) = data_filename data)
    /\ get_file_details (data_jobId data) (Listed [data_s3Key data]) (Some sample_object)
       = (200%nat,
          DetailsSuccess
            {| entry_id := data_jobId data;
               entry_filename := data_filename data;
               entry_originalName :=
                 or_else (Some (meta_originalName sample_object)) (data_filename data);
               entry_status := js "uploaded";
               entry_jobId := Some (data_jobId data);
               entry_fileType := or_else (Some (ContentType sample_object)) (js "unknown");
               entry_s3Key := data_s3Key data |})
    /\ getFileExtension (data_filename data)
       = getFileExtension (sanitizeFilename (originalname sample_file)).
Proof.
  apply (stored_filename_round_trip ∅ sample_file sample_env (js "etag") sample_object);
    [vm_compute; reflexivity | absent_unit | absent_unit].
Defined.

(** The property on the sample inputs. *)
Lemma uploads_do_not_overwrite_witness :
  uuid sample_env ≠ uuid sample_env2
  /\ exists key1 key2 obj1 obj2,
       key1 ≠ key2
       /\ fst (post_file ∅ (Some sample_file) sample_env (S3Ok (js "e1"))) !! key1 = Some obj1
       /\ fst (post_file (fst (post_file ∅ (Some sample_file) sample_env (S3Ok (js "e1"))))
                 (Some sample_file2) sample_env2 (S3Ok (js "e2"))) !! key1 = Some obj1
       /\ Body obj1 = buffer sample_file
       /\ fst (post_file (fst (post_file ∅ (Some sample_file) sample_env (S3Ok (js "e1"))))
                 (Some sample_file2) sample_env2 (S3Ok (js "e2"))) !! key2 = Some obj2
       /\ Body obj2 = buffer sample_file2
       /\ forall k, k ≠ key1 -> k ≠ key2 ->
            fst (post_file (fst (post_file ∅ (Some sample_file) sample_env (S3Ok (js "e1"))))
                   (Some sample_file2) sample_env2 (S3Ok (js "e2"))) !! k = (∅ : bucket) !! k.
Proof.
  assert (uuid sample_env ≠ uuid sample_env2) as Hne by (vm_compute; discriminate).
  split; [exact Hne|].
  apply (uploads_do_not_overwrite ∅ sample_file sample_file2 sample_env sample_env2
           (js "e1") (js "e2")); [vm_compute; reflexivity | vm_compute; reflexivity | exact Hne].
Defined.

(** The property on the sample inputs. *)
Lemma upload_then_delete_restores_witness :
  exists key,
    [sample_key] = [key]
    /\ is_Some (fst (post_file ∅ (Some sample_file) sample_env (S3Ok (js "etag"))) !! key)
    /\ delete_file (fst (post_file ∅ (Some sample_file) sample_env (S3Ok (js "etag"))))
         (uuid sample_env) (Listed [sample_key]) (fun _ => None)
       = (∅, (200%nat,
              DeleteSuccess {| deleted_fileId := uuid sample_env; deletedCount := 1;
                               deletedKeys := [key] |})).
Proof.
  apply (upload_then_delete_restores ∅ sample_file sample_env (js "etag") [sample_key]).
  - intros k _. apply lookup_empty.
  - rewrite post_file_key. apply singleton_listing.
    + apply job_prefix_s3Key.
    + intros k _. apply lookup_empty.
    + lia.
Defined.

(** The property on the sample inputs. *)
Lemma polling_never_exceeds_ten_witness :
  exists n,
    (n <= 10)%nat /\ (n <= length sample_outcomes)%nat
    /\ log (polling (js "t") (js "f1") sample_outcomes sample_page)
       = log sample_page ++ List.concat (replicate n [Waited 5000; Fetched (js "f1")])
    /\ fetches (log (polling (js "t") (js "f1") sample_outcomes sample_page))
       = (fetches (log sample_page) + n)%nat
    /\ waits (log (polling (js "t") (js "f1") sample_outcomes sample_page))
       = waits (log sample_page) ++ replicate n 5000%nat
    /\ pollingAttempts (state (polling (js "t") (js "f1") sample_outcomes sample_page)) = n.
Proof.
  apply (polling_never_exceeds_ten (js "t") (js "f1") sample_page sample_outcomes).
  apply sample_page_polling.
Defined.

(** The property on the sample inputs. *)
Lemma polling_stops_at_first_result_witness :
  job_state (polling (js "t") (js "f1") sample_outcomes sample_page) = Completed
  /\ pollTimer (polling (js "t") (js "f1") sample_outcomes sample_page) = None
  /\ error (state (polling (js "t") (js "f1") sample_outcomes sample_page)) = None
  /\ (analysisResult <$> selectedFile (state (polling (js "t") (js "f1") sample_outcomes sample_page)))
     = Some (Some sample_data)
  /\ fetches (log (polling (js "t") (js "f1") sample_outcomes sample_page))
     = (fetches (log sample_page) + 2 + 1)%nat
  /\ pollingAttempts (state (polling (js "t") (js "f1") sample_outcomes sample_page)) = 3%nat.
Proof.
  apply (polling_stops_at_first_result (js "t") (js "f1") sample_page
           [not_found; not_found] [not_found] sample_data
           (Some (js "Analysis results retrieved successfully"))).
  - apply sample_page_polling.
  - repeat constructor.
  - simpl. lia.
Defined.

(** The property on the sample inputs. *)
Lemma no_trigger_no_polling_witness :
  job_state (initAnalysis (js "t") bare_params true not_found mount) = NotTriggered
  /\ pollTimer (initAnalysis (js "t") bare_params true not_found mount) = None
  /\ fetches (log (initAnalysis (js "t") bare_params true not_found mount)) = 1%nat
  /\ polling (js "t") (js "f1") sample_outcomes
       (initAnalysis (js "t") bare_params true not_found mount)
     = initAnalysis (js "t") bare_params true not_found mount.
Proof.
  apply (no_trigger_no_polling (js "t") (js "f1") bare_params true not_found sample_outcomes);
    reflexivity.
Defined.

(** The property on the sample inputs; requests for other identifiers are
    taken to deliver a result, so the 404 answers come from the route. *)
Lemma missing_result_times_out_witness :
  let elsewhere := fun (_ : jsstring) (_ : World) =>
                     Resolved true (Some sample_data) None in
  let outs := List.map (fetch_from sample_parse elsewhere (js "f1"))
                (replicate 11 triggered_once) in
  url_safe (js "f1") = true
  /\ Forall (fun w => results w !! result_key (js "f1") = None)
       (replicate 11 triggered_once)
  /\ job_state (polling (js "t") (js "f1") outs sample_page) = TimedOut
  /\ pollTimer (polling (js "t") (js "f1") outs sample_page) = None
  /\ fetches (log (polling (js "t") (js "f1") outs sample_page)) = 11%nat.
Proof.
  assert (Forall (fun w => results w !! result_key (js "f1") = None)
            (replicate 11 triggered_once)) as Hw.
  { apply Forall_replicate. reflexivity. }
  split; [reflexivity|]. split; [exact Hw|].
  destruct (missing_result_times_out sample_parse
              (fun _ _ => Resolved true (Some sample_data) None)
              (js "t") (js "f1") sample_page (replicate 11 triggered_once)
              eq_refl sample_page_polling Hw)
    as (Hj & Ht & Hf & _).
  - rewrite length_replicate. lia.
  - split; [exact Hj|]. split; [exact Ht|exact Hf].
Defined.

(** The property on the sample inputs. *)
Lemma written_result_completes_witness :
  let elsewhere := fun (_ : jsstring) (_ : World) => not_found in
  url_safe (js "f1") = true
  /\ sample_parse (js "{}") = ObjectValue sample_data
  /\ get_analysis_status (write_result (js "f1") (js "{}") triggered_once) (js "f1") None
     = (200%nat, StatusSuccess (js "f1") (js "completed"))
  /\ exists p',
       poll_round (js "t") (js "f1")
         (fetch_from sample_parse elsewhere (js "f1")
            (write_result (js "f1") (js "{}") triggered_once))
         sample_page = Some p'
       /\ job_state p' = Completed
       /\ pollTimer p' = None
       /\ error (state p') = None
       /\ (analysisResult <$> selectedFile (state p')) = Some (Some sample_data).
Proof.
  split; [reflexivity|]. split; [reflexivity|].
  destruct (written_result_completes sample_parse (fun _ _ => not_found)
              (js "t") (js "f1") 0 sample_page triggered_once (js "{}") sample_data
              eq_refl sample_page_polling ltac:(lia) eq_refl)
    as (Hst & _ & Hp).
  split; [exact Hst|exact Hp].
Defined.

(** The property on the sample inputs. *)
Lemma write_result_flips_one_status_witness :
  get_analysis_status (write_result (js "f1") (js "{}") triggered_once) (js "f1") None
  = (200%nat, StatusSuccess (js "f1") (js "completed"))
  /\ fst (get_results sample_parse (write_result (js "f1") (js "{}") triggered_once)
            (js "f1") None) ≠ 404%nat
  /\ (results triggered_once !! result_key (js "f1") = None ->
      get_analysis_status triggered_once (js "f1") None
      = (200%nat, StatusSuccess (js "f1") (js "pending"))
      /\ fst (get_results sample_parse triggered_once (js "f1") None) = 404%nat)
  /\ (js "f2" ≠ js "f1" ->
      get_analysis_status (write_result (js "f1") (js "{}") triggered_once) (js "f2") None
      = get_analysis_status triggered_once (js "f2") None
      /\ get_results sample_parse (write_result (js "f1") (js "{}") triggered_once) (js "f2") None
         = get_results sample_parse triggered_once (js "f2") None).
Proof.
  apply (write_result_flips_one_status sample_parse (js "f1") triggered_once (js "f2")
           (js "{}") None).
  reflexivity.
Defined.

(** The property on the sample inputs. *)
Lemma listed_fileId_keeps_folder_witness :
  listed_fileId (result_key (js "f1")) = js "results/" ++ js "f1"
  /\ listed_fileId (result_key (js "f1")) ≠ js "f1"
  /\ result_key (listed_fileId (result_key (js "f1"))) ≠ result_key (js "f1").
Proof.
  apply (listed_fileId_keeps_folder (js "f1")). absent_unit.
Defined.

(** The property on the sample inputs. *)
Lemma malicious_votes_are_monotone_witness :
  consensus (three_way_consensus (Some benign_model) None
               (stata_with (Some (js "MALICIOUS")))) = true
  /\ consensus (three_way_consensus
                  (Some {| is_malicious := true; risk_score := 80; ml_confidence := 1 |})
                  None (stata_with (Some (js "MALICIOUS")))) = true.
Proof.
  split; [vm_compute; reflexivity|].
  apply (malicious_votes_are_monotone (Some benign_model) None
           (stata_with (Some (js "MALICIOUS"))) 80 1).
  vm_compute; reflexivity.
Defined.


(** The property on the sample inputs. *)
Lemma uploaded_file_gets_triggered_witness :
  param_fileId (handleProceed (file_entry sample_key None) (Some (js "sandia-jobs")))
  = Some (uuid sample_env)
  /\ exists rest,
       log (initAnalysis (js "t")
              (handleProceed (file_entry sample_key None) (Some (js "sandia-jobs")))
              true not_found mount)
       = TriggerSent (uuid sample_env) :: rest.
Proof.
  destruct (uploaded_file_gets_triggered ∅ sample_file sample_env (js "etag")
              (js "sandia-jobs") (js "t") (js "t2") None true not_found empty_world 202)
    as (_ & H1 & _ & H2 & _);
    [vm_compute; reflexivity | absent_unit | absent_unit | reflexivity |].
  split; [exact H1 | exact H2].
Defined.

